(** * GitLab integration (sentry/integrations/gitlab/integration.py)

    A shallow embedding of the GitLab integration module of Sentry and the
    properties of its installation pipeline: the error translator, the
    installation form and OAuth configuration view, the OAuth data
    extraction, the group lookup and the assembly of the integration
    record, and the re-installation of an existing integration. *)

From Stdlib Require Import Ascii String.
From stdpp Require Import gmap strings list fin_maps pretty.

(** ** Python values and exceptions *)

Module Py.

(** The values that flow through the module: JSON scalars decoded by the
    HTTP client and form values.  Any other object (a float, a nested
    list or dictionary) is kept opaque and carries only its [str()]
    rendering, which is all that string formatting observes. *)
Inductive pyval : Type :=
  | PNone
  | PBool (b : bool)
  | PInt (n : Z)
  | PStr (s : string)
  | PObj (rendering : string).

#[global] Instance pyval_eq_dec : EqDecision pyval.
Proof. solve_decision. Defined.

(** [str(v)], the conversion applied by [%s] and by [{}] in [str.format]. *)
Definition py_str (v : pyval) : string :=
  match v with
  | PNone => "None"
  | PBool true => "True"
  | PBool false => "False"
  | PInt n => pretty n
  | PStr s => s
  | PObj r => r
  end.

(** A decoded JSON object: a dictionary with string keys. *)
Abbreviation jobj := (gmap string pyval).

(** Truth value of a dictionary: empty dictionaries are false. *)
Definition dict_truthy (d : jobj) : bool := bool_decide (d ≠ ∅).

(** Truth value of a string: the empty string is false. *)
Definition str_truthy (s : string) : bool := bool_decide (s ≠ "").

(** [d.get(k, dflt)] *)
Definition dict_get (d : jobj) (k : string) (dflt : pyval) : pyval :=
  default dflt (d !! k).

(** *** String methods *)

(** [c in s] for a character [c] *)
Fixpoint str_in (c : ascii) (s : string) : bool :=
  match s with
  | EmptyString => false
  | String c' s' => bool_decide (c' = c) || str_in c s'
  end.

(** [s.find(c)] for a character [c]: [None] stands for [-1]. *)
Fixpoint str_find (c : ascii) (s : string) : option nat :=
  match s with
  | EmptyString => None
  | String c' s' => if decide (c' = c) then Some 0 else S <$> str_find c s'
  end.

(** [all(p(c) for c in s)] *)
Fixpoint str_all (p : ascii → bool) (s : string) : bool :=
  match s with
  | EmptyString => true
  | String c s' => p c && str_all p s'
  end.

(** [s.startswith(p)], which is also [s[:len(p)] == p] *)
Fixpoint str_startswith (p s : string) : bool :=
  match p with
  | EmptyString => true
  | String a p' =>
      match s with
      | EmptyString => false
      | String b s' => bool_decide (a = b) && str_startswith p' s'
      end
  end.

(** The slices [s[:n]] and [s[n:]] *)
Fixpoint str_take (n : nat) (s : string) : string :=
  match n, s with
  | S n', String c s' => String c (str_take n' s')
  | _, _ => EmptyString
  end.

Fixpoint str_drop (n : nat) (s : string) : string :=
  match n, s with
  | S n', String _ s' => str_drop n' s'
  | _, _ => s
  end.

(** [s.split(sep)] for a one-character separator: the result is never
    empty, and a string without separator is returned whole. *)
Fixpoint str_split (sep : ascii) (s : string) : list string :=
  match s with
  | EmptyString => [EmptyString]
  | String c s' =>
      if decide (c = sep) then EmptyString :: str_split sep s'
      else match str_split sep s' with
           | seg :: rest => String c seg :: rest
           | [] => [String c EmptyString]
           end
  end.

(** [s.replace(old, new)]: occurrences are replaced from left to right
    and do not overlap.  [skip] counts the characters of a matched
    occurrence that are still to be passed over. *)
Fixpoint replace_from (old new : string) (skip : nat) (s : string) : string :=
  match s with
  | EmptyString => EmptyString
  | String c s' =>
      match skip with
      | S k => replace_from old new k s'
      | O =>
          if str_startswith old s
          then new +:+ replace_from old new (String.length old - 1) s'
          else String c (replace_from old new 0 s')
      end
  end.

(** With an empty [old], Python inserts [new] around every character. *)
Fixpoint insert_around (new s : string) : string :=
  match s with
  | EmptyString => new
  | String c s' => new +:+ String c (insert_around new s')
  end.

Definition str_replace (old new s : string) : string :=
  match old with
  | EmptyString => insert_around new s
  | _ => replace_from old new 0 s
  end.

(** [sorted(l)] on strings: insertion sort along the code-point order. *)
Fixpoint sorted_insert (x : string) (l : list string) : list string :=
  match l with
  | [] => [x]
  | y :: l' => if String.leb x y then x :: l else y :: sorted_insert x l'
  end.

Definition sorted (l : list string) : list string :=
  foldr sorted_insert [] l.

(** [s.lower()] on ASCII letters *)
Definition ascii_lower (c : ascii) : ascii :=
  let n := N_of_ascii c in
  if bool_decide (65 ≤ n ≤ 90)%N then ascii_of_N (n + 32) else c.

Fixpoint str_lower (s : string) : string :=
  match s with
  | EmptyString => EmptyString
  | String c s' => String (ascii_lower c) (str_lower s')
  end.

End Py.

Export Py.

(** ** HTTP requests and responses (the [requests] session) *)

Record request : Type := mkRequest {
  req_method : string;
  req_url : string;
  req_headers : gmap string string;
  req_verify : bool;
}.

(** A response: its status code and its body decoded as a JSON object
    ([None] when the body does not decode, in which case [resp.json()]
    raises [ValueError]). *)
Record response : Type := mkResponse {
  status_code : Z;
  resp_json : option jobj;
}.

(** Modelled from the spec: [ApiError], declared in
    [sentry.integrations.exceptions], is the failure of an API call; it
    carries the HTTP status code and the JSON body of the response, an
    object, absent ([None]) when the upstream sent none.  The other
    constructors are the exceptions this module and the libraries under
    it raise. *)
Inductive exn : Type :=
  | ApiError (code : Z) (json : option jobj)
  | HTTPError (resp : response)
  | KeyError (key : string)
  | IndexError
  | AttributeError
  | ValueError (msg : string)
  | OtherError (msg : string).

(** [isinstance(exc, ApiError)] *)
Definition is_ApiError (exc : exn) : bool :=
  match exc with ApiError _ _ => true | _ => false end.

(** Outcome of a call: a value, or a raised exception. *)
Inductive result (A : Type) : Type :=
  | Ok (a : A)
  | Raise (e : exn).
Arguments Ok {A} a.
Arguments Raise {A} e.

#[global] Instance result_ret : MRet result := λ A a, Ok a.
#[global] Instance result_bind : MBind result := λ A B k r,
  match r with Ok a => k a | Raise e => Raise e end.

(** [d[k]]: subscription raises [KeyError] on a missing key. *)
Definition subscript (d : jobj) (k : string) : result pyval :=
  match d !! k with Some v => Ok v | None => Raise (KeyError k) end.

(** ** The error translator *)

Definition MSG_NOT_FOUND : string :=
  "Gitlab returned a 404 Not Found error. If this repository exists, ensure"
  +:+ " that your installation has permission to access this repository".

Definition UNKNOWN_ERROR : string := "unknown error".

Section ErrorTranslator.

(** [sentry.integrations.constants] is not part of this module: its two
    messages are parameters. *)
Variable ERR_INTERNAL : string.
Variable ERR_UNAUTHORIZED : string.

Definition API_ERRORS : gmap Z string :=
  {[ 404%Z := MSG_NOT_FOUND; 401%Z := ERR_UNAUTHORIZED ]}.

(** The second argument of the format string:
    [exc.json.get('message', 'unknown error') if exc.json else 'unknown error'] *)
Definition upstream_message (json : option jobj) : pyval :=
  match json with
  | Some d =>
      if dict_truthy d then dict_get d "message" (PStr UNKNOWN_ERROR)
      else PStr UNKNOWN_ERROR
  | None => PStr UNKNOWN_ERROR
  end.

Definition format_error (code : Z) (json : option jobj) : string :=
  "Error Communicating with Gitlab (HTTP " +:+ py_str (PInt code) +:+ "): "
    +:+ py_str (upstream_message json).

Definition message_from_error (exc : exn) : string :=
  match exc with
  | ApiError code json =>
      match API_ERRORS !! code with
      | Some message =>
          if str_truthy message then message else format_error code json
      | None => format_error code json
      end
  | _ => ERR_INTERNAL
  end.

End ErrorTranslator.

(** ** [urlparse(url).netloc] (Python standard library)

    The network location computed by [urlsplit], on which [urlparse]
    relies, as the [urlparse] module of Python 2.7 defines it up to
    release 2.7.16 (the integration reaches it through [six]): an
    optional scheme is split off at the first colon, and when what
    remains starts with two slashes the network location runs up to the
    first of [/], [?] and [#].  An authority with an unmatched square
    bracket is rejected with [ValueError].  Later releases reject more
    network locations, always with [ValueError]: those that change under
    NFKC normalisation, and from Python 3.11 bracketed hosts that are no
    IP address; those checks are not part of this definition. *)

Module Urllib.

Definition scheme_chars : string :=
  "abcdefghijklmnopqrstuvwxyzABCDEFGHIJKLMNOPQRSTUVWXYZ0123456789+-.".

Definition is_scheme_char (c : ascii) : bool := str_in c scheme_chars.

Definition is_digit (c : ascii) : bool := str_in c "0123456789".

(** The url once its scheme is split off.  A prefix [url[:i]] is a scheme
    when [i > 0], all its characters are scheme characters and the rest
    is not a port number. *)
Definition strip_scheme (url : string) : string :=
  match str_find ":" url with
  | Some (S i) =>
      if str_all is_scheme_char (str_take (S i) url) then
        let rest := str_drop (S (S i)) url in
        if bool_decide (rest = "") || negb (str_all is_digit rest)
        then rest else url
      else url
  | _ => url
  end.

Definition is_delim (c : ascii) : bool := str_in c "/?#".

(** [_splitnetloc(url, 2)[0]], once the two slashes are dropped: the
    characters before the first delimiter. *)
Fixpoint before_delim (s : string) : string :=
  match s with
  | EmptyString => EmptyString
  | String c s' => if is_delim c then EmptyString else String c (before_delim s')
  end.

Definition urlparse_netloc (url : string) : result string :=
  let url := strip_scheme url in
  if str_startswith "//" url then
    let netloc := before_delim (str_drop 2 url) in
    if (str_in "[" netloc && negb (str_in "]" netloc))
       || (str_in "]" netloc && negb (str_in "[" netloc))
    then Raise (ValueError "Invalid IPv6 URL")
    else Ok netloc
  else Ok "".

End Urllib.

(** ** The installation form (Django form fields) *)

(** The data bound as [installation_data]: the cleaned data of the form. *)
Record InstallationData : Type := mkInstallationData {
  url : string;
  name : string;
  group : string;
  verify_ssl : bool;
  client_id : string;
  client_secret : string;
}.

Module Django.

(** The submitted data ([request.POST]): field name to submitted text. *)
Abbreviation querydict := (gmap string string).

Section CharField.

(** The whitespace normalisation of a text field: Django releases from
    1.9 on strip the submitted text ([str.strip]), earlier ones keep it
    as it is. *)
Variable strip : string → string.

(** [CharField.to_python]: an empty value stays the empty string, any
    other text is normalised. *)
Definition CharField_to_python (v : string) : string :=
  if bool_decide (v = "") then "" else strip v.

(** [forms.CharField] (required): a missing value, or one that is empty
    once converted, is a validation error, [None] here. *)
Definition CharField_clean (data : querydict) (field : string) : option string :=
  match data !! field with
  | Some v =>
      let v := CharField_to_python v in
      if bool_decide (v = "") then None else Some v
  | None => None
  end.

End CharField.

(** [CheckboxInput.value_from_datadict]: a field missing from the
    submission means [False], since browsers send nothing for a box left
    unchecked; the texts [true] and [false] are translated, any other
    text counts by its truth value. *)
Definition CheckboxInput_value (data : querydict) (field : string) : bool :=
  match data !! field with
  | None => false
  | Some v =>
      let l := str_lower v in
      if bool_decide (l = "true") then true
      else if bool_decide (l = "false") then false
      else str_truthy v
  end.

(** [forms.BooleanField(required=False)]: the widget's value, never a
    validation error.  The field's [initial] value plays no part in
    cleaning: it is only rendered in an unbound form. *)
Definition BooleanField_clean (data : querydict) (field : string) : bool :=
  CheckboxInput_value data field.

End Django.

Import Django.

Section InstallationForm.

Variable strip : string → string.

(** [InstallationForm(request.POST)]: [is_valid()] and [cleaned_data].
    [None] when some field has a validation error. *)
Definition InstallationForm_clean (data : querydict) : option InstallationData :=
  url ← CharField_clean strip data "url";
  name ← CharField_clean strip data "name";
  group ← CharField_clean strip data "group";
  let verify_ssl := BooleanField_clean data "verify_ssl" in
  client_id ← CharField_clean strip data "client_id";
  client_secret ← CharField_clean strip data "client_secret";
  Some (mkInstallationData url name group verify_ssl client_id client_secret).

End InstallationForm.

(** The initial value this form gives to [verify_ssl], shown by the
    unbound form that [dispatch] renders. *)
Definition InstallationForm_initial_verify_ssl : bool := true.

(** ** The pipeline state and the configuration view *)

Record OAuthConfig : Type := mkOAuthConfig {
  access_token_url : string;
  authorize_url : string;
  oauth_client_id : string;
  oauth_client_secret : string;
  oauth_verify_ssl : bool;
}.

(** The state bound in the pipeline, by key.  [identity] holds
    [state['identity']['data']], the token payload bound by the nested
    identity pipeline. *)
Record pipeline_state : Type := mkState {
  installation_data : option InstallationData;
  oauth_config_information : option OAuthConfig;
  identity : option jobj;
}.

Definition empty_state : pipeline_state := mkState None None None.

Definition bind_installation_data (d : InstallationData) (st : pipeline_state) :=
  mkState (Some d) (oauth_config_information st) (identity st).

Definition bind_oauth_config_information (c : OAuthConfig) (st : pipeline_state) :=
  mkState (installation_data st) (Some c) (identity st).

Definition bind_identity (payload : jobj) (st : pipeline_state) :=
  mkState (installation_data st) (oauth_config_information st) (Some payload).

(** What a view answers: the next step of the pipeline, or the rendered
    form (unbound, with its initial values). *)
Inductive view_response : Type :=
  | NextStep
  | RenderForm (initial_verify_ssl : bool).

(** The dictionary bound as [oauth_config_information]. *)
Definition oauth_config_of (form_data : InstallationData) : OAuthConfig :=
  {| access_token_url := "https://" +:+ url form_data +:+ "/oauth/token";
     authorize_url := "https://" +:+ url form_data +:+ "/oauth/authorize";
     oauth_client_id := client_id form_data;
     oauth_client_secret := client_secret form_data;
     oauth_verify_ssl := verify_ssl form_data |}.

Section InstallationConfigView.

Variable strip : string → string.

(** [InstallationConfigView.dispatch] *)
Definition dispatch (post : querydict) (pipeline : pipeline_state)
  : result (pipeline_state * view_response) :=
  match InstallationForm_clean strip post with
  | Some form_data =>
      netloc ← Urllib.urlparse_netloc (url form_data);
      let form_data :=
        mkInstallationData netloc (name form_data) (group form_data)
          (verify_ssl form_data) (client_id form_data) (client_secret form_data) in
      let pipeline := bind_installation_data form_data pipeline in
      let pipeline :=
        bind_oauth_config_information (oauth_config_of form_data) pipeline in
      Ok (pipeline, NextStep)
  | None => Ok (pipeline, RenderForm InstallationForm_initial_verify_ssl)
  end.

End InstallationConfigView.

(** ** Calls that reach the network

    A computation that issues HTTP requests threads the log of the
    requests issued so far, oldest first, and ends with a value or a
    raised exception. *)

Definition io (A : Type) : Type := list request → result A * list request.

#[global] Instance io_ret : MRet io := λ A a tr, (Ok a, tr).
#[global] Instance io_bind : MBind io := λ A B k m tr,
  match m tr with
  | (Ok a, tr') => k a tr'
  | (Raise e, tr') => (Raise e, tr')
  end.

(** A step that touches no network. *)
Definition lift {A} (r : result A) : io A := λ tr, (r, tr).

Module Requests.

(** [Response.raise_for_status()] of the [requests] library: client
    errors (400 to 499) and server errors (500 to 599) raise [HTTPError],
    which carries the response; any other status passes. *)
Definition raise_for_status (resp : response) : result unit :=
  if bool_decide (400 ≤ status_code resp < 600)%Z
  then Raise (HTTPError resp)
  else Ok ().

(** [Response.json()] *)
Definition json (resp : response) : result jobj :=
  match resp_json resp with
  | Some body => Ok body
  | None => Raise (ValueError "No JSON object could be decoded")
  end.

End Requests.

(** ** The integration record *)

Record IntegrationMetadata : Type := mkMetadata {
  icon : pyval;
  domain_name : string;
  scopes : list string;
  metadata_verify_ssl : bool;
}.

Record UserIdentity : Type := mkUserIdentity {
  identity_type : string;
  identity_external_id : pyval;
  identity_scopes : list string;
  identity_data : jobj;
}.

Record Integration : Type := mkIntegration {
  integration_name : pyval;
  external_id : string;
  metadata : IntegrationMetadata;
  user_identity : UserIdentity;
}.

(** The configuration handed to the nested identity pipeline. *)
Record IdentityPipelineConfig : Type := mkIdentityConfig {
  config_oauth_scopes : list string;
  config_redirect_url : string;
  config_oauth : OAuthConfig;
}.

(** ** The integration provider *)

Section GitlabIntegrationProvider.

(** The remote end: the response [session.get] obtains for a request,
    or the exception of a failed transport. *)
Variable server : request → result response.

(** [sentry.identity.gitlab.get_user_info] and
    [sentry.utils.http.absolute_uri] are not part of this module. *)
Variable get_user_info : pyval → InstallationData → io jobj.
Variable absolute_uri : string → string.

(** [GitlabIdentityProvider.oauth_scopes] is declared in
    [sentry.identity.gitlab.provider]. *)
Variable GitlabIdentityProvider_oauth_scopes : list string.

Definition session_get (req : request) : io response :=
  λ tr, (server req, tr ++ [req]).

(** [_make_identity_pipeline_view]: the configuration of the nested
    view.  Without [oauth_config_information] in the state the
    dictionary unpacking fails. *)
Definition _make_identity_pipeline_view (pipeline : pipeline_state)
  : result IdentityPipelineConfig :=
  match oauth_config_information pipeline with
  | Some config =>
      Ok {| config_oauth_scopes := ["api"; "sudo"];
            config_redirect_url := absolute_uri "/extensions/gitlab/setup/";
            config_oauth := config |}
  | None => Raise (OtherError "TypeError")
  end.

Definition get_oauth_data (payload : jobj) : result jobj :=
  access_token ← subscript payload "access_token";
  let data : jobj := {[ "access_token" := access_token ]} in
  let data :=
    match payload !! "refresh_token" with
    | Some v => <["refresh_token" := v]> data
    | None => data
    end in
  let data :=
    match payload !! "token_type" with
    | Some v => <["token_type" := v]> data
    | None => data
    end in
  Ok data.

(** The request of the group lookup. *)
Definition group_request (access_token : pyval) (inst : InstallationData)
  : request :=
  {| req_method := "GET";
     req_url := "https://" +:+ url inst +:+ "/api/v4/groups/" +:+ group inst;
     req_headers :=
       {[ "Accept" := "application/json";
          "Authorization" := "Bearer " +:+ py_str access_token ]};
     req_verify := verify_ssl inst |}.

Definition get_group_info (access_token : pyval) (inst : InstallationData)
  : io jobj :=
  resp ← session_get (group_request access_token inst);
  _ ← lift (Requests.raise_for_status resp);
  lift (Requests.json resp).

(** [state[key]] *)
Definition state_identity (state : pipeline_state) : result jobj :=
  match identity state with
  | Some data => Ok data
  | None => Raise (KeyError "identity")
  end.

Definition state_installation_data (state : pipeline_state)
  : result InstallationData :=
  match installation_data state with
  | Some d => Ok d
  | None => Raise (KeyError "installation_data")
  end.

(** [v.replace(old, new)]: a method of strings only. *)
Definition method_replace (v : pyval) (old new : string) : result string :=
  match v with
  | PStr s => Ok (str_replace old new s)
  | _ => Raise AttributeError
  end.

Definition build_integration (state : pipeline_state) : io Integration :=
  data ← lift (state_identity state);
  oauth_data ← lift (get_oauth_data data);
  access_token ← lift (subscript data "access_token");
  inst ← lift (state_installation_data state);
  user ← get_user_info access_token inst;
  access_token ← lift (subscript data "access_token");
  inst ← lift (state_installation_data state);
  group ← get_group_info access_token inst;
  let scopes := sorted GitlabIdentityProvider_oauth_scopes in
  inst ← lift (state_installation_data state);
  let base_url := url inst in
  group_name ← lift (subscript group "name");
  group_id ← lift (subscript group "id");
  avatar_url ← lift (subscript group "avatar_url");
  web_url ← lift (subscript group "web_url");
  domain ← lift (method_replace web_url "https://" "");
  inst' ← lift (state_installation_data state);
  user_id ← lift (subscript user "id");
  mret {| integration_name := group_name;
          external_id := base_url +:+ ":" +:+ py_str group_id;
          metadata :=
            {| icon := avatar_url;
               domain_name := domain;
               scopes := scopes;
               metadata_verify_ssl := verify_ssl inst' |};
          user_identity :=
            {| identity_type := "gitlab";
               identity_external_id := user_id;
               identity_scopes := scopes;
               identity_data := oauth_data |} |}.

End GitlabIntegrationProvider.

(** The record assembled from the installation data, the OAuth data and
    the fields of the group and of the user. *)
Definition assembled (inst : InstallationData) (sorted_scopes : list string)
    (oauth_data : jobj) (group_name group_id avatar_url : pyval)
    (web_url : string) (user_id : pyval) : Integration :=
  {| integration_name := group_name;
     external_id := url inst +:+ ":" +:+ py_str group_id;
     metadata :=
       {| icon := avatar_url;
          domain_name := str_replace "https://" "" web_url;
          scopes := sorted_scopes;
          metadata_verify_ssl := verify_ssl inst |};
     user_identity :=
       {| identity_type := "gitlab";
          identity_external_id := user_id;
          identity_scopes := sorted_scopes;
          identity_data := oauth_data |} |}.

(** ** Re-installation of an integration *)

(** The stored integration model, as far as this module reads and
    writes it. *)
Record IntegrationModel : Type := mkModel {
  model_external_id : string;
  model_metadata : jobj;
}.

Section GitlabIntegration.

(** [IntegrationInstallation.reinstall_repositories] belongs to the base
    class: it works on the repositories of the integration, a store of
    its own. *)
Variable Repositories : Type.
Variable reinstall_repositories :
  IntegrationModel → Repositories → result unit * Repositories.

(** [reinstall] runs on the stored model and the repositories, and
    leaves them as they are when it ends or raises. *)
Definition reinstall (store : IntegrationModel * Repositories)
  : result unit * (IntegrationModel * Repositories) :=
  let '(model, repos) := store in
  match str_split ":" (model_external_id model) !! 1 with
  | Some installation_id =>
      let metadata :=
        <["installation_id" := PStr installation_id]> (model_metadata model) in
      let model := mkModel (model_external_id model) metadata in
      let '(r, repos) := reinstall_repositories model repos in
      (r, (model, repos))
  | None => (Raise IndexError, store)
  end.

End GitlabIntegration.

(** ** Occurrences of a substring *)


(** ** Sample data *)

(** The token payload GitLab answers with, less its [refresh_token]. *)
Definition sample_payload : jobj :=
  {[ "access_token" := PStr "123432sfh29uhs29347";
     "token_type" := PStr "bearer";
     "scope" := PStr "api sudo" ]}.

Definition sample_installation : InstallationData :=
  {| url := "gitlab.example.com"; name := "Sentry App";
     group := "my-awesome-group"; verify_ssl := true;
     client_id := "5832fc6e"; client_secret := "XXXX" |}.

Definition sample_group : jobj :=
  {[ "name" := PStr "My Awesome Group"; "id" := PInt 42;
     "avatar_url" := PNone;
     "web_url" := PStr "https://gitlab.example.com/groups/my-awesome-group" ]}.

(** A remote end that answers every request with the given status and
    the sample group. *)
Definition sample_server (status : Z) : request → result response :=
  λ _, Ok (mkResponse status (Some sample_group)).

(** A text field normalisation that keeps the text as submitted. *)
Definition as_submitted : string → string := λ s, s.

(** A submission of the five text fields, with a check box left out. *)
Definition sample_post (submitted_url : string) : querydict :=
  {[ "url" := submitted_url; "name" := "Sentry App";
     "group" := "my-awesome-group"; "client_id" := "5832fc6e";
     "client_secret" := "XXXX" ]}.

(** A user lookup that asks the remote end for the current user and
    obtains user 7. *)
Definition sample_get_user_info : pyval → InstallationData → io jobj :=
  λ access_token inst tr,
    (Ok {[ "id" := PInt 7 ]},
     tr ++ [{| req_method := "GET";
               req_url := "https://" +:+ url inst +:+ "/api/v4/user";
               req_headers :=
                 {[ "Authorization" := "Bearer " +:+ py_str access_token ]};
               req_verify := verify_ssl inst |}]).

(** The state of a pipeline that reached the last step. *)
Definition sample_state : pipeline_state :=
  {| installation_data := Some sample_installation;
     oauth_config_information := Some (oauth_config_of sample_installation);
     identity := Some sample_payload |}.

(** A submission with the check box ticked. *)
Definition sample_post_verified : querydict :=
  <[ "verify_ssl" := "on" ]> (sample_post "https://gitlab.example.com/").

(** ** Properties of the error translator *)

Lemma dict_truthy_lookup (d : jobj) (k : string) (v : pyval) :
  d !! k = Some v → dict_truthy d = true.
Proof.
  intros Hk. unfold dict_truthy. apply bool_decide_eq_true.
  intros ->. by rewrite lookup_empty in Hk.
Qed.

Lemma API_ERRORS_other (unauth : string) (code : Z) :
  code ≠ 404%Z → code ≠ 401%Z → API_ERRORS unauth !! code = None.
Proof.
  intros H404 H401. unfold API_ERRORS.
  rewrite lookup_insert_ne by done.
  by rewrite lookup_singleton_ne.
Qed.

Lemma message_from_error_other (internal unauth : string) code json :
  code ≠ 404%Z → code ≠ 401%Z →
  message_from_error internal unauth (ApiError code json)
  = format_error code json.
Proof.
  intros H404 H401. unfold message_from_error.
  by rewrite API_ERRORS_other.
Qed.

(** C1. The error translator is a total function from exceptions (an
    [ApiError] with its status code and JSON body, or any other
    exception) to strings: an [ApiError] with status 404 gives the fixed not-found
    message; with status 401 the unauthorized message (a non-empty
    constant); with any other status the formatted string holding the
    status code and the upstream JSON [message] field, or [unknown error]
    when the JSON body or its [message] field is absent; every exception
    that is not an [ApiError] gives the internal-error message. *)
Theorem message_from_error_total_mapping (internal unauth : string) :
  unauth ≠ "" →
  (∀ json, message_from_error internal unauth (ApiError 404 json)
           = MSG_NOT_FOUND) ∧
  (∀ json, message_from_error internal unauth (ApiError 401 json) = unauth) ∧
  (∀ code d m, code ≠ 404%Z → code ≠ 401%Z → d !! "message" = Some m →
     message_from_error internal unauth (ApiError code (Some d))
     = "Error Communicating with Gitlab (HTTP " +:+ pretty code +:+ "): "
         +:+ py_str m) ∧
  (∀ code json, code ≠ 404%Z → code ≠ 401%Z →
     json = None ∨ (∃ d, json = Some d ∧ d !! "message" = None) →
     message_from_error internal unauth (ApiError code json)
     = "Error Communicating with Gitlab (HTTP " +:+ pretty code +:+ "): "
         +:+ "unknown error") ∧
  (∀ exc, is_ApiError exc = false →
     message_from_error internal unauth exc = internal).
Proof.
  intros Hne. split; [| split; [| split; [| split]]].
  - intros json. reflexivity.
  - intros json. unfold message_from_error, API_ERRORS.
    rewrite lookup_insert_ne by done. rewrite lookup_singleton_eq.
    unfold str_truthy. by rewrite bool_decide_eq_true_2 by done.
  - intros code d m H404 H401 Hm.
    rewrite message_from_error_other by done.
    unfold format_error, upstream_message, dict_get.
    by rewrite (dict_truthy_lookup d "message" m Hm), Hm.
  - intros code json H404 H401 Habs.
    rewrite message_from_error_other by done.
    unfold format_error, upstream_message, dict_get.
    destruct Habs as [-> | (d & -> & Hm)]; [done |].
    rewrite Hm. by destruct (dict_truthy d).
  - intros exc Hexc. by destruct exc.
Qed.

Lemma message_from_error_total_mapping_witness :
  message_from_error "internal error" "unauthorized" (ApiError 401 None)
  = "unauthorized" ∧
  message_from_error "internal error" "unauthorized"
    (ApiError 500 (Some {[ "message" := PStr "boom" ]}))
  = "Error Communicating with Gitlab (HTTP 500): boom" ∧
  message_from_error "internal error" "unauthorized" (ApiError 502 (Some ∅))
  = "Error Communicating with Gitlab (HTTP 502): unknown error" ∧
  message_from_error "internal error" "unauthorized" (KeyError "id")
  = "internal error".
Proof.
  destruct (message_from_error_total_mapping "internal error" "unauthorized")
    as (_ & H401 & Hmsg & Habs & Hother); [discriminate |].
  split; [apply H401 |].
  split; [exact (Hmsg 500%Z {[ "message" := PStr "boom" ]} (PStr "boom")
                   ltac:(discriminate) ltac:(discriminate) eq_refl) |].
  split; [exact (Habs 502%Z (Some ∅) ltac:(discriminate) ltac:(discriminate)
                   (or_intror (ex_intro _ ∅ (conj eq_refl eq_refl)))) |].
  exact (Hother (KeyError "id") eq_refl).
Defined.

(** ** Properties of the OAuth data extraction *)

Lemma get_oauth_data_missing_token (payload : jobj) :
  payload !! "access_token" = None →
  get_oauth_data payload = Raise (KeyError "access_token").
Proof. intros H. unfold get_oauth_data, subscript. by rewrite H. Qed.

Lemma get_oauth_data_total (payload : jobj) (access_token : pyval) :
  payload !! "access_token" = Some access_token →
  ∃ data, get_oauth_data payload = Ok data.
Proof.
  intros Htok. unfold get_oauth_data, subscript. rewrite Htok. by eexists.
Qed.

(** C4. For a token payload (a dictionary holding [access_token]),
    [get_oauth_data] returns a dictionary that holds [access_token], holds
    [refresh_token] exactly when the payload does, with the same value,
    and likewise [token_type]; it holds no other key, so that a key
    absent from the payload is absent from the result. *)
Theorem get_oauth_data_keys (payload : jobj) (access_token : pyval) :
  payload !! "access_token" = Some access_token →
  ∃ data : jobj,
    get_oauth_data payload = Ok data ∧
    data !! "access_token" = Some access_token ∧
    data !! "refresh_token" = payload !! "refresh_token" ∧
    data !! "token_type" = payload !! "token_type" ∧
    (∀ k, k ≠ "access_token" → k ≠ "refresh_token" → k ≠ "token_type" →
          data !! k = None).
Proof.
  intros Htok. unfold get_oauth_data, subscript. rewrite Htok. simpl.
  eexists. split; [reflexivity |].
  destruct (payload !! "refresh_token") as [r|],
           (payload !! "token_type") as [t|];
    repeat split; intros; by simplify_map_eq.
Qed.

Lemma get_oauth_data_keys_witness :
  ∃ data : jobj,
    get_oauth_data sample_payload = Ok data ∧
    data !! "access_token" = Some (PStr "123432sfh29uhs29347") ∧
    data !! "refresh_token" = None ∧
    data !! "token_type" = Some (PStr "bearer") ∧
    data !! "scope" = None.
Proof.
  destruct (get_oauth_data_keys sample_payload
              (PStr "123432sfh29uhs29347") eq_refl)
    as (data & Hdata & Htok & Hrefresh & Htype & Hother).
  exists data. split; [exact Hdata |]. split; [exact Htok |].
  split; [exact Hrefresh |]. split; [exact Htype |].
  apply Hother; discriminate.
Defined.

(** ** Properties of the group lookup *)

Lemma get_group_info_unfold server tok inst (tr : list request) :
  get_group_info server tok inst tr
  = (resp ← server (group_request tok inst);
     _ ← Requests.raise_for_status resp;
     Requests.json resp,
     tr ++ [group_request tok inst]).
Proof.
  unfold get_group_info, session_get, lift, mbind, io_bind, result_bind.
  destruct (server (group_request tok inst)) as [resp|e]; [| reflexivity].
  destruct (Requests.raise_for_status resp) as [[]|e]; reflexivity.
Qed.

(** C7. The group lookup issues one request: a GET of
    [https://{url}/api/v4/groups/{group}], url and group taken from the
    installation data, with the header [Authorization: Bearer
    {access_token}], and with TLS verification set to the installation
    data's [verify_ssl]. *)
Theorem get_group_info_request server tok inst (tr : list request) :
  ∃ req : request,
    (get_group_info server tok inst tr).2 = tr ++ [req] ∧
    req_method req = "GET" ∧
    req_url req = "https://" +:+ url inst +:+ "/api/v4/groups/" +:+ group inst ∧
    req_headers req !! "Authorization" = Some ("Bearer " +:+ py_str tok) ∧
    req_verify req = verify_ssl inst.
Proof.
  exists (group_request tok inst). rewrite get_group_info_unfold.
  repeat split.
Qed.

(** C8, as the code has it.  The group lookup issues one request and
    does not retry.  When the status of the response is a client or
    server error (400 to 599) it raises the HTTP error of the [requests]
    library, which carries the response, hence its status code and body.
    For any other status, 2xx included, it returns the decoded JSON body
    and raises nothing when the body decodes, and raises [ValueError]
    when it does not.  So it raises exactly when the status is an error
    status or the body does not decode. *)
Theorem get_group_info_status server tok inst (tr : list request) resp :
  server (group_request tok inst) = Ok resp →
  ((400 ≤ status_code resp < 600)%Z →
     get_group_info server tok inst tr
     = (Raise (HTTPError resp), tr ++ [group_request tok inst])) ∧
  (¬ (400 ≤ status_code resp < 600)%Z → ∀ body, resp_json resp = Some body →
     get_group_info server tok inst tr
     = (Ok body, tr ++ [group_request tok inst])) ∧
  (¬ (400 ≤ status_code resp < 600)%Z → resp_json resp = None →
     ∃ msg, get_group_info server tok inst tr
            = (Raise (ValueError msg), tr ++ [group_request tok inst])) ∧
  ((∃ e, (get_group_info server tok inst tr).1 = Raise e) ↔
   (400 ≤ status_code resp < 600)%Z ∨ resp_json resp = None) ∧
  (get_group_info server tok inst tr).2 = tr ++ [group_request tok inst].
Proof.
  intros Hresp. rewrite get_group_info_unfold, Hresp.
  unfold Requests.raise_for_status, Requests.json. simpl.
  split; [| split; [| split; [| split]]].
  - intros Herr. by rewrite bool_decide_eq_true_2.
  - intros Hok body Hbody. rewrite bool_decide_eq_false_2 by done.
    simpl. by rewrite Hbody.
  - intros Hok Hbody. rewrite bool_decide_eq_false_2 by done.
    simpl. rewrite Hbody. by eexists.
  - case_bool_decide as Hstatus; simpl.
    + split; [by left | by eexists].
    + destruct (resp_json resp) as [body|]; simpl.
      * split; [by intros [e ?] | by intros [? | ?]].
      * split; [by right | by eexists].
  - done.
Qed.

Lemma get_group_info_status_witness :
  get_group_info (sample_server 404) (PStr "tok") sample_installation []
  = (Raise (HTTPError (mkResponse 404 (Some sample_group))),
     [group_request (PStr "tok") sample_installation]) ∧
  get_group_info (sample_server 200) (PStr "tok") sample_installation []
  = (Ok sample_group, [group_request (PStr "tok") sample_installation]) ∧
  ∃ msg,
    get_group_info (λ _, Ok (mkResponse 204 None)) (PStr "tok")
      sample_installation []
    = (Raise (ValueError msg), [group_request (PStr "tok") sample_installation]).
Proof.
  split; [| split].
  - apply (get_group_info_status (sample_server 404) (PStr "tok")
             sample_installation [] (mkResponse 404 (Some sample_group))
             eq_refl).
    simpl. lia.
  - apply (get_group_info_status (sample_server 200) (PStr "tok")
             sample_installation [] (mkResponse 200 (Some sample_group))
             eq_refl); [simpl; lia | reflexivity].
  - destruct (get_group_info_status (λ _, Ok (mkResponse 204 None))
                (PStr "tok") sample_installation [] (mkResponse 204 None)
                eq_refl) as (_ & _ & Hbody & _).
    apply Hbody; [simpl; lia | reflexivity].
Defined.

(** Raising does not go with the status being outside 2xx, either way.
    A response with status 300 (Multiple Choices, which the HTTP client
    does not follow and hands over with its body) is not a 2xx response,
    and the group lookup returns its body without raising; a response
    with status 200 whose body is no JSON is a 2xx response, and the
    group lookup raises. *)
Lemma get_group_info_status_not_raise_iff_non_2xx :
  (¬ (200 ≤ 300 < 300)%Z ∧
   get_group_info (sample_server 300) (PStr "tok") sample_installation []
   = (Ok sample_group, [group_request (PStr "tok") sample_installation])) ∧
  ((200 ≤ 200 < 300)%Z ∧
   ∃ msg,
     get_group_info (λ _, Ok (mkResponse 200 None)) (PStr "tok")
       sample_installation []
     = (Raise (ValueError msg),
        [group_request (PStr "tok") sample_installation])).
Proof.
  split; (split; [lia |]); [reflexivity | by eexists].
Qed.

(** ** Properties of [str.split] *)

Lemma str_app_cons (c : ascii) (a b : string) :
  String c a +:+ b = String c (a +:+ b).
Proof. reflexivity. Qed.

Lemma str_app_nil_r (s : string) : s +:+ "" = s.
Proof.
  induction s as [|c s IH]; [done |]. by rewrite str_app_cons, IH.
Qed.

Lemma str_split_absent (sep : ascii) (s : string) :
  str_in sep s = false → str_split sep s = [s].
Proof.
  induction s as [|c s IH]; simpl; [done |].
  intros [Hc Hs]%orb_false_elim.
  apply bool_decide_eq_false in Hc.
  destruct (decide (c = sep)) as [->|_]; [done |].
  by rewrite IH.
Qed.

Lemma str_split_app (sep : ascii) (a rest : string) :
  str_in sep a = false →
  str_split sep (a +:+ String sep rest) = a :: str_split sep rest.
Proof.
  induction a as [|c a IH]; simpl.
  - intros _. by destruct (decide (sep = sep)).
  - intros [Hc Ha]%orb_false_elim.
    apply bool_decide_eq_false in Hc.
    destruct (decide (c = sep)) as [->|_]; [done |].
    by rewrite IH.
Qed.

Lemma str_split_present (sep : ascii) (s : string) :
  str_in sep s = true →
  ∃ a rest, s = a +:+ String sep rest ∧ str_in sep a = false.
Proof.
  induction s as [|c s IH]; simpl; [done |].
  destruct (decide (c = sep)) as [->|Hne].
  - intros _. by exists "", s.
  - rewrite bool_decide_eq_false_2 by done. simpl.
    intros (a & rest & -> & Ha)%IH.
    exists (String c a), rest. split; [done |]. simpl.
    by rewrite bool_decide_eq_false_2.
Qed.

(** A string starts with a segment free of separators, which ends at the
    first separator or at the end of the string. *)
Lemma str_first_segment (sep : ascii) (s : string) :
  ∃ b rest, s = b +:+ rest ∧ str_in sep b = false ∧
            (rest = "" ∨ ∃ r, rest = String sep r).
Proof.
  induction s as [|c s (b & rest & -> & Hb & Hrest)].
  - exists "", "". auto.
  - destruct (decide (c = sep)) as [->|Hne].
    + exists "", (String sep (b +:+ rest)). eauto.
    + exists (String c b), rest. repeat split; [| done]. simpl.
      by rewrite bool_decide_eq_false_2.
Qed.

(** A string that holds a separator has at least two segments. *)
Lemma str_two_segments (sep : ascii) (s : string) :
  str_in sep s = true →
  ∃ a b rest, s = a +:+ String sep (b +:+ rest) ∧
              str_in sep a = false ∧ str_in sep b = false ∧
              (rest = "" ∨ ∃ r, rest = String sep r).
Proof.
  intros (a & tail & -> & Ha)%str_split_present.
  destruct (str_first_segment sep tail) as (b & rest & -> & Hb & Hrest).
  by exists a, b, rest.
Qed.

(** The second segment: the text between the first separator and the
    second one, or the end of the string. *)
Lemma str_split_second (sep : ascii) (a b rest : string) :
  str_in sep a = false → str_in sep b = false →
  rest = "" ∨ (∃ r, rest = String sep r) →
  str_split sep (a +:+ String sep (b +:+ rest)) !! 1 = Some b.
Proof.
  intros Ha Hb Hrest. rewrite str_split_app by done. simpl.
  destruct Hrest as [-> | [r ->]].
  - by rewrite str_app_nil_r, str_split_absent.
  - by rewrite str_split_app.
Qed.

(** ** Properties of the re-installation *)

(** C10. When [external_id] has at least two segments separated by
    colons, that is when it holds a colon, [reinstall] stores the second
    segment (the text after the first colon, up to the second colon if
    there is one) under [installation_id] in the metadata and leaves
    every other key of the metadata, and the external id, as they were;
    when [external_id] holds no colon, [reinstall] raises and the stored
    model is unchanged. *)
Theorem reinstall_installation_id (Repositories : Type)
    (reinstall_repositories :
       IntegrationModel → Repositories → result unit * Repositories)
    (model : IntegrationModel) (repos : Repositories) :
  (str_in ":" (model_external_id model) = true →
     ∃ a b rest r model' repos',
       model_external_id model = a +:+ String ":" (b +:+ rest) ∧
       str_in ":" a = false ∧ str_in ":" b = false ∧
       (rest = "" ∨ ∃ tail, rest = String ":" tail) ∧
       reinstall Repositories reinstall_repositories (model, repos)
       = (r, (model', repos')) ∧
       model_metadata model' !! "installation_id" = Some (PStr b) ∧
       (∀ k, k ≠ "installation_id" →
             model_metadata model' !! k = model_metadata model !! k) ∧
       model_external_id model' = model_external_id model) ∧
  (str_in ":" (model_external_id model) = false →
     reinstall Repositories reinstall_repositories (model, repos)
     = (Raise IndexError, (model, repos))).
Proof.
  split.
  - intros (a & b & rest & Hid & Ha & Hb & Hrest)%str_two_segments.
    destruct model as [ext md]. simpl in *. subst ext.
    unfold reinstall. simpl. rewrite str_split_second by done.
    destruct (reinstall_repositories _ repos) as [r repos'].
    eexists a, b, rest, r, _, repos'.
    repeat (split; [done |]). simpl.
    split; [by rewrite lookup_insert_eq |].
    split; [| done]. intros k Hk. by rewrite lookup_insert_ne.
  - intros Hno. unfold reinstall. by rewrite str_split_absent.
Qed.

Lemma reinstall_installation_id_witness :
  ∃ model',
    reinstall unit (λ _ repos, (Ok (), repos))
      (mkModel "gitlab.example.com:42" {[ "icon" := PNone ]}, ())
    = (Ok (), (model', ())) ∧
    model_metadata model' !! "installation_id" = Some (PStr "42") ∧
    model_metadata model' !! "icon" = Some PNone ∧
    reinstall unit (λ _ repos, (Ok (), repos))
      (mkModel "gitlab" {[ "icon" := PNone ]}, ())
    = (Raise IndexError, (mkModel "gitlab" {[ "icon" := PNone ]}, ())).
Proof.
  destruct (reinstall_installation_id unit (λ _ repos, (Ok (), repos))
              (mkModel "gitlab.example.com:42" {[ "icon" := PNone ]}) ())
    as [Hset _].
  destruct (Hset eq_refl)
    as (a & b & rest & r & model' & repos' & Hid & Ha & Hb & Hrest & Hrun
          & Hinstallation & Hframe & _).
  exists model'.
  assert (r = Ok () ∧ repos' = ()) as [-> ->].
  { vm_compute in Hrun. by inversion Hrun. }
  assert (b = "42") as ->.
  { vm_compute in Hrun. injection Hrun as <-.
    vm_compute in Hinstallation. by injection Hinstallation as <-. }
  split; [exact Hrun |]. split; [exact Hinstallation |].
  split; [rewrite Hframe; [reflexivity | discriminate] |].
  apply (reinstall_installation_id unit (λ _ repos, (Ok (), repos))
           (mkModel "gitlab" {[ "icon" := PNone ]}) ()).
  reflexivity.
Defined.

(** ** Properties of the URL parser *)

Import Urllib.

Lemma str_take_app (a b : string) : str_take (String.length a) (a +:+ b) = a.
Proof.
  induction a as [|c a IH]; simpl.
  - by destruct b.
  - by rewrite ?str_app_cons, IH.
Qed.

Lemma str_find_after_scheme (scheme rest : string) :
  str_all is_scheme_char scheme = true →
  str_find ":" (scheme +:+ String ":" rest) = Some (String.length scheme).
Proof.
  induction scheme as [|c scheme IH]; simpl; [done |].
  intros [Hc Hs]%andb_true_iff. rewrite ?str_app_cons. simpl.
  destruct (decide (c = ":"%char)) as [->|_]; [done |].
  by rewrite IH.
Qed.

Lemma str_drop_app_cons (a b : string) (c : ascii) :
  str_drop (S (String.length a)) (a +:+ String c b) = b.
Proof.
  induction a as [|c' a IH]; [done |].
  rewrite str_app_cons. exact IH.
Qed.

Lemma strip_scheme_absolute (scheme rest : string) :
  scheme ≠ "" → str_all is_scheme_char scheme = true →
  strip_scheme (scheme +:+ String ":" (String "/" rest)) = String "/" rest.
Proof.
  intros Hne Hscheme. unfold strip_scheme.
  rewrite str_find_after_scheme by done.
  destruct (String.length scheme) as [|i] eqn:Hlen.
  { by destruct scheme. }
  rewrite <- Hlen, str_take_app, Hscheme, str_drop_app_cons.
  reflexivity.
Qed.

Lemma before_delim_app (host rest : string) :
  str_all (λ c, negb (is_delim c)) host = true →
  rest = "" ∨ (∃ c r, rest = String c r ∧ is_delim c = true) →
  before_delim (host +:+ rest) = host.
Proof.
  intros Hhost Hrest. induction host as [|c host IH]; simpl.
  - destruct Hrest as [->|(c & r & -> & Hc)]; [done |].
    change ("" +:+ String c r) with (String c r). simpl. by rewrite Hc.
  - simpl in Hhost. apply andb_true_iff in Hhost as [Hc Hhost].
    rewrite ?str_app_cons. simpl.
    apply negb_true_iff in Hc. rewrite Hc. by rewrite IH.
Qed.

Lemma before_delim_clean (s : string) :
  str_all (λ c, negb (is_delim c)) (before_delim s) = true.
Proof.
  induction s as [|c s IH]; simpl; [done |].
  destruct (is_delim c) eqn:Hc; simpl; [done |]. by rewrite Hc.
Qed.

(** The network location holds no path, query or fragment. *)
Lemma urlparse_netloc_clean (submitted netloc : string) :
  urlparse_netloc submitted = Ok netloc →
  str_all (λ c, negb (is_delim c)) netloc = true.
Proof.
  unfold urlparse_netloc. intros H.
  repeat case_match; simplify_eq; [apply before_delim_clean | done].
Qed.

(** For an absolute URL the network location is what stands between
    the two slashes after the scheme and the path, query or fragment. *)
Lemma urlparse_netloc_absolute (scheme host rest : string) :
  scheme ≠ "" → str_all is_scheme_char scheme = true →
  str_all (λ c, negb (is_delim c)) host = true →
  str_in "[" host = str_in "]" host →
  rest = "" ∨ (∃ c r, rest = String c r ∧ is_delim c = true) →
  urlparse_netloc (scheme +:+ "://" +:+ host +:+ rest) = Ok host.
Proof.
  intros Hne Hscheme Hhost Hbr Hrest. unfold urlparse_netloc.
  change ("://" +:+ (host +:+ rest))
    with (String ":" (String "/" (String "/" (host +:+ rest)))).
  rewrite strip_scheme_absolute by done.
  change (str_startswith "//" (String "/" (String "/" (host +:+ rest))))
    with true.
  change (str_drop 2 (String "/" (String "/" (host +:+ rest))))
    with (host +:+ rest).
  cbv zeta. rewrite before_delim_app by done.
  rewrite Hbr. by destruct (str_in "]" host).
Qed.

(** ** Properties of the installation form *)

Lemma CharField_clean_Some strip (data : querydict) (field v : string) :
  CharField_clean strip data field = Some v ↔
  ∃ w, data !! field = Some w ∧ CharField_to_python strip w = v ∧ v ≠ "".
Proof.
  unfold CharField_clean. destruct (data !! field) as [w|]; simpl.
  - destruct (bool_decide_reflect (CharField_to_python strip w = "")) as [He|Hne].
    + split; [done |]. intros (w' & [= <-] & <- & Hv). done.
    + split.
      * intros [= <-]. by exists w.
      * by intros (w' & [= <-] & <- & _).
  - split; [done |]. by intros (w & ? & _).
Qed.

Lemma CharField_clean_empty strip (data : querydict) (field : string) :
  data !! field = None ∨ data !! field = Some "" →
  CharField_clean strip data field = None.
Proof.
  unfold CharField_clean. by intros [-> | ->].
Qed.

(** The form is valid exactly when its five text fields clean, and the
    cleaned data then hold the cleaned texts and the value of the check
    box. *)
Lemma InstallationForm_clean_Some strip (data : querydict)
    (d : InstallationData) :
  InstallationForm_clean strip data = Some d ↔
  CharField_clean strip data "url" = Some (url d) ∧
  CharField_clean strip data "name" = Some (name d) ∧
  CharField_clean strip data "group" = Some (group d) ∧
  CharField_clean strip data "client_id" = Some (client_id d) ∧
  CharField_clean strip data "client_secret" = Some (client_secret d) ∧
  verify_ssl d = BooleanField_clean data "verify_ssl".
Proof.
  unfold InstallationForm_clean. split.
  - intros H.
    destruct (CharField_clean strip data "url"); [| done].
    destruct (CharField_clean strip data "name"); [| done].
    destruct (CharField_clean strip data "group"); [| done].
    destruct (CharField_clean strip data "client_id"); [| done].
    destruct (CharField_clean strip data "client_secret"); [| done].
    simpl in H. by simplify_eq.
  - intros (-> & -> & -> & -> & -> & <-). by destruct d.
Qed.

Lemma BooleanField_clean_omitted (post : querydict) (field : string) :
  post !! field = None → BooleanField_clean post field = false.
Proof.
  intros H. unfold BooleanField_clean, CheckboxInput_value. by rewrite H.
Qed.

Lemma InstallationForm_clean_required strip (post : querydict)
    (field : string) :
  field ∈ ["url"; "name"; "group"; "client_id"; "client_secret"] →
  CharField_clean strip post field = None →
  InstallationForm_clean strip post = None.
Proof.
  intros Hfield Hclean. unfold InstallationForm_clean.
  repeat (apply elem_of_cons in Hfield as [-> | Hfield]);
    [ .. | by apply elem_of_nil in Hfield ].
  all: repeat (first [ rewrite Hclean; reflexivity
                     | match goal with
                       | |- context [CharField_clean ?f ?p ?n ≫= _] =>
                           destruct (CharField_clean f p n); simpl; [| done]
                       end ]).
Qed.

(** ** Properties of the configuration view *)

(** What [dispatch] binds for a valid form whose url parses. *)
Lemma dispatch_valid strip (post : querydict) (st : pipeline_state)
    (form_data : InstallationData) (netloc : string) :
  InstallationForm_clean strip post = Some form_data →
  urlparse_netloc (url form_data) = Ok netloc →
  let bound :=
    mkInstallationData netloc (name form_data) (group form_data)
      (verify_ssl form_data) (client_id form_data) (client_secret form_data) in
  dispatch strip post st
  = Ok (mkState (Some bound) (Some (oauth_config_of bound)) (identity st),
        NextStep).
Proof.
  intros Hform Hurl. unfold dispatch. rewrite Hform, Hurl. reflexivity.
Qed.

Lemma dispatch_next_step strip (post : querydict) (st st' : pipeline_state) :
  dispatch strip post st = Ok (st', NextStep) →
  ∃ form_data netloc,
    InstallationForm_clean strip post = Some form_data ∧
    urlparse_netloc (url form_data) = Ok netloc ∧
    st' = mkState
            (Some (mkInstallationData netloc (name form_data)
                     (group form_data) (verify_ssl form_data)
                     (client_id form_data) (client_secret form_data)))
            (Some (oauth_config_of
                     (mkInstallationData netloc (name form_data)
                        (group form_data) (verify_ssl form_data)
                        (client_id form_data) (client_secret form_data))))
            (identity st).
Proof.
  unfold dispatch. intros H.
  destruct (InstallationForm_clean strip post) as [form_data|]; [| done].
  destruct (urlparse_netloc (url form_data)) as [netloc|e] eqn:Hurl; [| done].
  simpl in H. exists form_data, netloc. by simplify_eq.
Qed.

(** C3, as the code has it.  For every valid form submission whose url
    the URL parser accepts, the view binds an OAuth configuration built
    from the network location of the submitted url alone, which holds
    no path, query or fragment and, for an absolute URL, is what stands
    between [scheme://] and the path: [access_token_url] is
    [https://{host}/oauth/token], [authorize_url] is
    [https://{host}/oauth/authorize], and [client_id], [client_secret]
    and [verify_ssl] are those of the form data.  The view is a function
    of the submission and the pipeline state, and reaches no network. *)
Theorem dispatch_oauth_config :
  (∀ strip (post : querydict) (st : pipeline_state) form_data host,
     InstallationForm_clean strip post = Some form_data →
     urlparse_netloc (url form_data) = Ok host →
     ∃ st' config,
       dispatch strip post st = Ok (st', NextStep) ∧
       oauth_config_information st' = Some config ∧
       access_token_url config = "https://" +:+ host +:+ "/oauth/token" ∧
       authorize_url config = "https://" +:+ host +:+ "/oauth/authorize" ∧
       oauth_client_id config = client_id form_data ∧
       oauth_client_secret config = client_secret form_data ∧
       oauth_verify_ssl config = verify_ssl form_data ∧
       str_all (λ c, negb (is_delim c)) host = true) ∧
  (∀ scheme host rest,
     scheme ≠ "" → str_all is_scheme_char scheme = true →
     str_all (λ c, negb (is_delim c)) host = true →
     str_in "[" host = str_in "]" host →
     rest = "" ∨ (∃ c r, rest = String c r ∧ is_delim c = true) →
     urlparse_netloc (scheme +:+ "://" +:+ host +:+ rest) = Ok host).
Proof.
  split; [| apply urlparse_netloc_absolute].
  intros strip post st form_data host Hform Hurl.
  eexists _, _. split; [by apply dispatch_valid |].
  simpl. repeat (split; [reflexivity |]).
  by apply urlparse_netloc_clean in Hurl.
Qed.

Lemma dispatch_oauth_config_witness :
  ∃ st' config,
    dispatch as_submitted (sample_post "https://gitlab.example.com/foo?x=1")
      empty_state = Ok (st', NextStep) ∧
    oauth_config_information st' = Some config ∧
    access_token_url config = "https://gitlab.example.com/oauth/token" ∧
    authorize_url config = "https://gitlab.example.com/oauth/authorize" ∧
    oauth_client_id config = "5832fc6e" ∧
    oauth_client_secret config = "XXXX" ∧
    oauth_verify_ssl config = false.
Proof.
  destruct dispatch_oauth_config as [Hconfig Hnetloc].
  destruct (Hconfig as_submitted
              (sample_post "https://gitlab.example.com/foo?x=1") empty_state
              (mkInstallationData "https://gitlab.example.com/foo?x=1"
                 "Sentry App" "my-awesome-group" false "5832fc6e" "XXXX")
              "gitlab.example.com" eq_refl
              (Hnetloc "https" "gitlab.example.com" "/foo?x=1"
                 ltac:(discriminate) eq_refl eq_refl eq_refl
                 (or_intror (ex_intro _ "/"%char
                    (ex_intro _ "foo?x=1" (conj eq_refl eq_refl))))))
    as (st' & config & Hrun & Hbound & Htoken & Hauth & Hid & Hsecret
          & Hverify & _).
  exists st', config. repeat split; assumption.
Defined.

(** A valid submission whose url carries an unmatched square bracket:
    the view raises, and binds no configuration. *)
Lemma dispatch_raises_on_unmatched_bracket :
  InstallationForm_clean as_submitted (sample_post "http://[::1")
  = Some (mkInstallationData "http://[::1" "Sentry App" "my-awesome-group"
            false "5832fc6e" "XXXX") ∧
  dispatch as_submitted (sample_post "http://[::1") empty_state
  = Raise (ValueError "Invalid IPv6 URL").
Proof. split; reflexivity. Qed.

(** C6, as the code has it.  For every form submission in which the
    [verify_ssl] field is omitted and the five text fields are filled in
    (with texts that are not empty once normalised), validation succeeds
    and the cleaned data, and the installation data bound from them, have
    [verify_ssl] false: the value true is only the initial value of the
    unbound form that the view renders.  The fields [url], [name],
    [group], [client_id] and [client_secret] are required: when one of
    them is missing or empty the form is invalid, nothing is bound and
    the form is rendered again. *)
Theorem verify_ssl_omitted_is_false :
  (∀ strip (post : querydict) u n g i s,
     post !! "verify_ssl" = None →
     post !! "url" = Some u → CharField_to_python strip u ≠ "" →
     post !! "name" = Some n → CharField_to_python strip n ≠ "" →
     post !! "group" = Some g → CharField_to_python strip g ≠ "" →
     post !! "client_id" = Some i → CharField_to_python strip i ≠ "" →
     post !! "client_secret" = Some s → CharField_to_python strip s ≠ "" →
     InstallationForm_clean strip post
     = Some (mkInstallationData
               (CharField_to_python strip u) (CharField_to_python strip n)
               (CharField_to_python strip g) false
               (CharField_to_python strip i) (CharField_to_python strip s))) ∧
  (∀ strip (post : querydict) st st',
     post !! "verify_ssl" = None →
     dispatch strip post st = Ok (st', NextStep) →
     verify_ssl <$> installation_data st' = Some false) ∧
  (∀ strip (post : querydict) field st,
     field ∈ ["url"; "name"; "group"; "client_id"; "client_secret"] →
     post !! field = None ∨ post !! field = Some "" →
     InstallationForm_clean strip post = None ∧
     dispatch strip post st = Ok (st, RenderForm true)).
Proof.
  split; [| split].
  - intros strip post u n g i s Hverify Hu ? Hn ? Hg ? Hi ? Hs ?.
    apply InstallationForm_clean_Some. simpl.
    rewrite !CharField_clean_Some, BooleanField_clean_omitted by done.
    repeat split; eauto.
  - intros strip post st st' Hverify
      (form_data & netloc & Hform & _ & ->)%dispatch_next_step.
    apply InstallationForm_clean_Some in Hform as (_ & _ & _ & _ & _ & ->).
    simpl. by rewrite BooleanField_clean_omitted.
  - intros strip post field st Hfield Hempty.
    assert (InstallationForm_clean strip post = None) as Hinvalid.
    { eapply InstallationForm_clean_required; [done |].
      by apply CharField_clean_empty. }
    split; [done |]. unfold dispatch. by rewrite Hinvalid.
Qed.

Lemma verify_ssl_omitted_is_false_witness :
  InstallationForm_clean as_submitted (sample_post "https://gitlab.example.com")
  = Some (mkInstallationData "https://gitlab.example.com" "Sentry App"
            "my-awesome-group" false "5832fc6e" "XXXX") ∧
  InstallationForm_clean as_submitted
    (delete "group" (sample_post "https://gitlab.example.com"))
  = None.
Proof.
  destruct verify_ssl_omitted_is_false as (Hvalid & _ & Hrequired).
  split.
  - apply (Hvalid as_submitted (sample_post "https://gitlab.example.com")
             "https://gitlab.example.com" "Sentry App" "my-awesome-group"
             "5832fc6e" "XXXX");
      first [reflexivity | discriminate].
  - apply (Hrequired as_submitted
             (delete "group" (sample_post "https://gitlab.example.com"))
             "group" empty_state).
    + apply list_elem_of_further, list_elem_of_further, list_elem_of_here.
    + left. reflexivity.
Defined.

(** A submission with every text field filled in and [verify_ssl] left
    out: the form is valid, and the installation data are bound with
    [verify_ssl] false, not true. *)
Lemma verify_ssl_omitted_binds_false :
  sample_post "https://gitlab.example.com" !! "verify_ssl" = None ∧
  ∃ st',
    dispatch as_submitted (sample_post "https://gitlab.example.com") empty_state
    = Ok (st', NextStep) ∧
    verify_ssl <$> installation_data st' = Some false ∧
    verify_ssl <$> installation_data st' ≠ Some true.
Proof.
  split; [reflexivity |]. eexists. split; [reflexivity |].
  split; [reflexivity | discriminate].
Qed.

(** ** Properties of the integration assembler *)

(** Exposes the steps of [build_integration] and of the calls under it. *)
Ltac unfold_build_integration :=
  unfold build_integration, state_identity, state_installation_data, subscript,
    method_replace, lift, mbind, mret, io_bind, io_ret.

(** Every successful run of [build_integration] went through the two
    lookups and found the fields it reads. *)
Lemma build_integration_inv server get_user_info oauth_scopes
    (st : pipeline_state) (tr tr' : list request) (integ : Integration) :
  build_integration server get_user_info oauth_scopes st tr = (Ok integ, tr') →
  ∃ payload tok inst oauth_data user tr1 (grp : jobj) gname gid avatar web uid,
    identity st = Some payload ∧
    payload !! "access_token" = Some tok ∧
    installation_data st = Some inst ∧
    get_oauth_data payload = Ok oauth_data ∧
    get_user_info tok inst tr = (Ok user, tr1) ∧
    get_group_info server tok inst tr1 = (Ok grp, tr') ∧
    grp !! "name" = Some gname ∧ grp !! "id" = Some gid ∧
    grp !! "avatar_url" = Some avatar ∧ grp !! "web_url" = Some (PStr web) ∧
    user !! "id" = Some uid ∧
    integ = assembled inst (sorted oauth_scopes) oauth_data
              gname gid avatar web uid.
Proof.
  unfold_build_integration. intros H.
  destruct (identity st) as [payload|] eqn:Hidentity; [| done].
  destruct (get_oauth_data payload) as [oauth_data|] eqn:Hdata; [| done].
  destruct (payload !! "access_token") as [tok|] eqn:Htok; [| done].
  destruct (installation_data st) as [inst|] eqn:Hinst; [| done].
  destruct (get_user_info tok inst tr) as [[user|] tr1] eqn:Huser; [| done].
  destruct (get_group_info server tok inst tr1) as [[grp|] tr2] eqn:Hgroup;
    [| done].
  destruct (grp !! "name") as [gname|] eqn:Hname; [| done].
  destruct (grp !! "id") as [gid|] eqn:Hid; [| done].
  destruct (grp !! "avatar_url") as [avatar|] eqn:Havatar; [| done].
  destruct (grp !! "web_url") as [[| | |web|]|] eqn:Hweb; try done.
  destruct (user !! "id") as [uid|] eqn:Huid; [| done].
  simplify_eq.
  exists payload, tok, inst, oauth_data, user, tr1, grp, gname, gid, avatar,
    web, uid.
  repeat split; done.
Qed.

(** Conversely, the run succeeds as soon as the state holds a token
    payload and the installation data, both lookups succeed and the
    fields are there. *)
Lemma build_integration_complete server get_user_info oauth_scopes
    (st : pipeline_state) (tr tr1 tr' : list request)
    (payload : jobj) tok inst (user grp : jobj) gname gid avatar web uid :
  identity st = Some payload →
  payload !! "access_token" = Some tok →
  installation_data st = Some inst →
  get_user_info tok inst tr = (Ok user, tr1) →
  get_group_info server tok inst tr1 = (Ok grp, tr') →
  grp !! "name" = Some gname → grp !! "id" = Some gid →
  grp !! "avatar_url" = Some avatar → grp !! "web_url" = Some (PStr web) →
  user !! "id" = Some uid →
  ∃ oauth_data,
    get_oauth_data payload = Ok oauth_data ∧
    build_integration server get_user_info oauth_scopes st tr
    = (Ok (assembled inst (sorted oauth_scopes) oauth_data
             gname gid avatar web uid), tr').
Proof.
  intros Hidentity Htok Hinst Huser Hgroup Hname Hid Havatar Hweb Huid.
  destruct (get_oauth_data_total payload tok Htok) as (oauth_data & Hdata).
  exists oauth_data. split; [done |]. unfold_build_integration.
  rewrite Hidentity, Hdata, Htok, Hinst, Huser, Hgroup, Hname, Hid, Havatar,
    Hweb, Huid.
  reflexivity.
Qed.

(** C2. Whenever [build_integration] produces an integration record, its
    [external_id] is the [url] of the installation data (the base url),
    a colon, and the [id] of the group that the group lookup returned;
    for the base url [gitlab.example.com] and the group id 42 it is
    [gitlab.example.com:42]. *)
Theorem build_integration_external_id server get_user_info oauth_scopes
    (st : pipeline_state) (tr tr' : list request) (integ : Integration) :
  build_integration server get_user_info oauth_scopes st tr = (Ok integ, tr') →
  ∃ payload tok inst tr1 (grp : jobj) gid,
    identity st = Some payload ∧
    payload !! "access_token" = Some tok ∧
    installation_data st = Some inst ∧
    get_group_info server tok inst tr1 = (Ok grp, tr') ∧
    grp !! "id" = Some gid ∧
    external_id integ = url inst +:+ ":" +:+ py_str gid ∧
    (url inst = "gitlab.example.com" → gid = PInt 42 →
     external_id integ = "gitlab.example.com:42").
Proof.
  intros (payload & tok & inst & oauth_data & user & tr1 & grp & gname & gid
            & avatar & web & uid & Hidentity & Htok & Hinst & _ & _ & Hgroup
            & _ & Hid & _ & _ & _ & ->)%build_integration_inv.
  exists payload, tok, inst, tr1, grp, gid.
  repeat (split; [done |]). simpl. by intros -> ->.
Qed.

Lemma build_integration_external_id_witness :
  ∃ integ tr',
    build_integration (sample_server 200) sample_get_user_info ["api"; "sudo"]
      sample_state [] = (Ok integ, tr') ∧
    external_id integ = "gitlab.example.com:42".
Proof.
  eexists _, _. split; [reflexivity |].
  destruct (build_integration_external_id (sample_server 200)
              sample_get_user_info ["api"; "sudo"] sample_state [] _ _ eq_refl)
    as (payload & tok & inst & tr1 & grp & gid & _ & _ & Hinst & Hgroup & Hid
          & _ & Hexample).
  apply Hexample.
  - by injection Hinst as <-.
  - rewrite get_group_info_unfold in Hgroup.
    injection Hgroup as <- _. by injection Hid as <-.
Defined.

(** C5. Whenever [build_integration] produces an integration record, the
    scopes of its metadata and those of its user identity are the sorted
    list [api], [sudo]: they are the sorted scopes of the identity
    provider, the set of [api] and [sudo], whatever the token payload
    holds (its [scope] included). *)
Theorem build_integration_scopes server get_user_info oauth_scopes
    (st : pipeline_state) (tr tr' : list request) (integ : Integration) :
  oauth_scopes ≡ₚ ["api"; "sudo"] →
  build_integration server get_user_info oauth_scopes st tr = (Ok integ, tr') →
  scopes (metadata integ) = ["api"; "sudo"] ∧
  identity_scopes (user_identity integ) = ["api"; "sudo"].
Proof.
  intros Hscopes
    (payload & tok & inst & oauth_data & user & tr1 & grp & gname & gid
       & avatar & web & uid & _ & _ & _ & _ & _ & _ & _ & _ & _ & _ & _
       & ->)%build_integration_inv.
  symmetry in Hscopes.
  by apply Permutation_length_2_inv in Hscopes as [-> | ->].
Qed.

Lemma build_integration_scopes_witness :
  ∃ integ tr',
    build_integration (sample_server 200) sample_get_user_info ["sudo"; "api"]
      sample_state [] = (Ok integ, tr') ∧
    scopes (metadata integ) = ["api"; "sudo"] ∧
    identity_scopes (user_identity integ) = ["api"; "sudo"].
Proof.
  eexists _, _. split; [reflexivity |].
  apply (build_integration_scopes (sample_server 200) sample_get_user_info
           ["sudo"; "api"] sample_state [] _ _ (perm_swap "api" "sudo" [])
           eq_refl).
Defined.

(** C9. When a form submission is valid and the pipeline then produces
    an integration record, the [verify_ssl] of the record's metadata is
    the value cleaned from the submission; the installation data, the
    OAuth configuration and the configuration of the identity pipeline
    all carry that same value. *)
Theorem verify_ssl_round_trip strip server get_user_info absolute_uri
    oauth_scopes (post : querydict) (st st' : pipeline_state) (payload : jobj)
    (tr tr' : list request) (integ : Integration) :
  dispatch strip post st = Ok (st', NextStep) →
  build_integration server get_user_info oauth_scopes
    (bind_identity payload st') tr = (Ok integ, tr') →
  ∃ inst config view,
    installation_data st' = Some inst ∧
    oauth_config_information st' = Some config ∧
    _make_identity_pipeline_view absolute_uri st' = Ok view ∧
    verify_ssl inst = BooleanField_clean post "verify_ssl" ∧
    oauth_verify_ssl config = BooleanField_clean post "verify_ssl" ∧
    oauth_verify_ssl (config_oauth view) = BooleanField_clean post "verify_ssl" ∧
    metadata_verify_ssl (metadata integ) = BooleanField_clean post "verify_ssl".
Proof.
  intros (form_data & netloc & Hform & _ & ->)%dispatch_next_step
    (payload' & tok & inst & oauth_data & user & tr1 & grp & gname & gid
       & avatar & web & uid & _ & _ & Hinst & _ & _ & _ & _ & _ & _ & _ & _
       & ->)%build_integration_inv.
  apply InstallationForm_clean_Some in Hform as (_ & _ & _ & _ & _ & Hverify).
  simpl in Hinst. injection Hinst as <-.
  eexists _, _, _. repeat (split; [reflexivity |]). simpl.
  by rewrite Hverify.
Qed.

Lemma verify_ssl_round_trip_witness :
  BooleanField_clean sample_post_verified "verify_ssl" = true ∧
  ∃ st' integ tr',
    dispatch as_submitted sample_post_verified empty_state
    = Ok (st', NextStep) ∧
    build_integration (sample_server 200) sample_get_user_info ["api"; "sudo"]
      (bind_identity sample_payload st') [] = (Ok integ, tr') ∧
    metadata_verify_ssl (metadata integ) = true.
Proof.
  split; [reflexivity |].
  eexists _, _, _. split; [reflexivity |]. split; [reflexivity |].
  destruct (verify_ssl_round_trip as_submitted (sample_server 200)
              sample_get_user_info
              (λ path, "https://sentry.example.com" +:+ path)
              ["api"; "sudo"] sample_post_verified empty_state _ sample_payload [] _ _
              eq_refl eq_refl)
    as (inst & config & view & _ & _ & _ & _ & _ & _ & Hintegration).
  exact Hintegration.
Defined.

(** * Further properties of the module *)

(** ** The OAuth data extraction, once more *)

(** X1. [get_oauth_data] is idempotent: applied to a dictionary it
    returned, it returns that dictionary unchanged. *)
Theorem get_oauth_data_idempotent (payload data : jobj) :
  get_oauth_data payload = Ok data → get_oauth_data data = Ok data.
Proof.
  unfold get_oauth_data, subscript.
  destruct (payload !! "access_token") as [tok|]; [| done]. simpl.
  destruct (payload !! "refresh_token") as [r|],
           (payload !! "token_type") as [t|];
    intros [= <-]; by simplify_map_eq.
Qed.

Lemma get_oauth_data_idempotent_witness :
  ∃ data, get_oauth_data sample_payload = Ok data ∧
          get_oauth_data data = Ok data ∧ data ≠ sample_payload.
Proof.
  eexists. split; [reflexivity |].
  split; [exact (get_oauth_data_idempotent sample_payload _ eq_refl) |].
  intros H. apply (f_equal (lookup "scope")) in H. discriminate H.
Defined.

(** ** Failures of the integration assembler *)

(** X2. On a state that lacks the identity, the access token or the
    installation data, [build_integration] raises [KeyError] for the
    first missing key and issues no request: neither lookup is reached,
    whatever the remote end would answer. *)
Theorem build_integration_incomplete_state server get_user_info oauth_scopes
    (st : pipeline_state) (tr : list request) :
  (identity st = None →
   build_integration server get_user_info oauth_scopes st tr
   = (Raise (KeyError "identity"), tr)) ∧
  (∀ payload : jobj,
     identity st = Some payload → payload !! "access_token" = None →
     build_integration server get_user_info oauth_scopes st tr
     = (Raise (KeyError "access_token"), tr)) ∧
  (∀ (payload : jobj) tok,
     identity st = Some payload → payload !! "access_token" = Some tok →
     installation_data st = None →
     build_integration server get_user_info oauth_scopes st tr
     = (Raise (KeyError "installation_data"), tr)).
Proof.
  split; [| split].
  - intros Hidentity. unfold_build_integration. by rewrite Hidentity.
  - intros payload Hidentity Htok. unfold_build_integration.
    by rewrite Hidentity, (get_oauth_data_missing_token payload Htok).
  - intros payload tok Hidentity Htok Hinst.
    destruct (get_oauth_data_total payload tok Htok) as [data Hdata].
    unfold_build_integration. by rewrite Hidentity, Hdata, Htok, Hinst.
Qed.

Lemma build_integration_incomplete_state_witness :
  build_integration (sample_server 200) sample_get_user_info ["api"; "sudo"]
    (bind_identity {[ "token_type" := PStr "bearer" ]} sample_state) []
  = (Raise (KeyError "access_token"), []).
Proof.
  destruct (build_integration_incomplete_state (sample_server 200)
              sample_get_user_info ["api"; "sudo"]
              (bind_identity {[ "token_type" := PStr "bearer" ]} sample_state)
              []) as (_ & Htoken & _).
  apply (Htoken {[ "token_type" := PStr "bearer" ]}); reflexivity.
Defined.

(** X3. [build_integration] handles no exception: when the user lookup
    raises, that exception is raised and the group lookup is never
    issued; when the group lookup raises, that exception is raised as it
    is. *)
Theorem build_integration_lookup_failure server get_user_info oauth_scopes
    (st : pipeline_state) (tr tr1 : list request) (payload : jobj) tok inst :
  identity st = Some payload →
  payload !! "access_token" = Some tok →
  installation_data st = Some inst →
  (∀ e, get_user_info tok inst tr = (Raise e, tr1) →
        build_integration server get_user_info oauth_scopes st tr
        = (Raise e, tr1)) ∧
  (∀ user e tr2,
     get_user_info tok inst tr = (Ok user, tr1) →
     get_group_info server tok inst tr1 = (Raise e, tr2) →
     build_integration server get_user_info oauth_scopes st tr
     = (Raise e, tr2) ∧ tr2 = tr1 ++ [group_request tok inst]).
Proof.
  intros Hidentity Htok Hinst.
  destruct (get_oauth_data_total payload tok Htok) as [data Hdata].
  split.
  - intros e Huser. unfold_build_integration.
    by rewrite Hidentity, Hdata, Htok, Hinst, Huser.
  - intros user e tr2 Huser Hgroup. split.
    + unfold_build_integration.
      by rewrite Hidentity, Hdata, Htok, Hinst, Huser, Hgroup.
    + rewrite get_group_info_unfold in Hgroup. by injection Hgroup.
Qed.

Lemma build_integration_lookup_failure_witness :
  ∃ tr1,
    build_integration (sample_server 503) sample_get_user_info ["api"; "sudo"]
      sample_state []
    = (Raise (HTTPError (mkResponse 503 (Some sample_group))),
       tr1 ++ [group_request (PStr "123432sfh29uhs29347") sample_installation]).
Proof.
  exists (sample_get_user_info (PStr "123432sfh29uhs29347")
            sample_installation []).2.
  destruct (build_integration_lookup_failure (sample_server 503)
              sample_get_user_info ["api"; "sudo"] sample_state []
              (sample_get_user_info (PStr "123432sfh29uhs29347")
                 sample_installation []).2
              sample_payload (PStr "123432sfh29uhs29347") sample_installation
              eq_refl eq_refl eq_refl) as [_ Hgroup].
  destruct (Hgroup {[ "id" := PInt 7 ]}
              (HTTPError (mkResponse 503 (Some sample_group))) _
              eq_refl eq_refl) as [Hrun _].
  exact Hrun.
Defined.

(** X4. When both lookups succeed but the answers lack a field,
    [build_integration] raises after the requests were issued:
    [KeyError] for the first of [name], [id], [avatar_url] and [web_url]
    that the group lacks, [AttributeError] when the group's [web_url] is
    not a string, and [KeyError] for [id] when the user lacks it. *)
Theorem build_integration_missing_field server get_user_info oauth_scopes
    (st : pipeline_state) (tr tr1 tr' : list request)
    (payload : jobj) tok inst (user grp : jobj) :
  identity st = Some payload →
  payload !! "access_token" = Some tok →
  installation_data st = Some inst →
  get_user_info tok inst tr = (Ok user, tr1) →
  get_group_info server tok inst tr1 = (Ok grp, tr') →
  (∀ before k after,
     ["name"; "id"; "avatar_url"; "web_url"] = before ++ k :: after →
     Forall (λ f, is_Some (grp !! f)) before → grp !! k = None →
     build_integration server get_user_info oauth_scopes st tr
     = (Raise (KeyError k), tr')) ∧
  (∀ v, Forall (λ f, is_Some (grp !! f)) ["name"; "id"; "avatar_url"] →
        grp !! "web_url" = Some v → (∀ s, v ≠ PStr s) →
        build_integration server get_user_info oauth_scopes st tr
        = (Raise AttributeError, tr')) ∧
  (∀ web, Forall (λ f, is_Some (grp !! f)) ["name"; "id"; "avatar_url"] →
          grp !! "web_url" = Some (PStr web) → user !! "id" = None →
          build_integration server get_user_info oauth_scopes st tr
          = (Raise (KeyError "id"), tr')).
Proof.
  intros Hidentity Htok Hinst Huser Hgroup.
  destruct (get_oauth_data_total payload tok Htok) as [data Hdata].
  assert (∀ r,
    (name ← subscript grp "name"; id ← subscript grp "id";
     avatar ← subscript grp "avatar_url"; web ← subscript grp "web_url";
     domain ← method_replace web "https://" ""; uid ← subscript user "id";
     Ok (assembled inst (sorted oauth_scopes) data name id avatar domain uid))
    = Raise r →
    build_integration server get_user_info oauth_scopes st tr = (Raise r, tr'))
    as Hfields.
  { intros r. unfold_build_integration.
    rewrite Hidentity, Hdata, Htok, Hinst, Huser, Hgroup.
    unfold result_bind.
    destruct (grp !! "name"); [| by intros [= <-]].
    destruct (grp !! "id"); [| by intros [= <-]].
    destruct (grp !! "avatar_url"); [| by intros [= <-]].
    destruct (grp !! "web_url") as [[| | |web|]|]; try by intros [= <-].
    by destruct (user !! "id"); [| intros [= <-]]. }
  split; [| split].
  - intros before k after Hsplit Hbefore Hk. apply Hfields.
    unfold subscript, mbind, result_bind.
    destruct before as [|f1 [|f2 [|f3 [|f4 before]]]]; simplify_eq/=;
      repeat match goal with
             | H : Forall _ (_ :: _) |- _ =>
                 apply Forall_cons in H as [[? ->] H]
             end;
      try by rewrite Hk.
    by destruct before.
  - intros v (Hname & (Hid & (Havatar & _)%Forall_cons)%Forall_cons)%Forall_cons
      Hweb Hstr.
    apply Hfields. unfold subscript, mbind, result_bind.
    destruct Hname as [? ->], Hid as [? ->], Havatar as [? ->].
    rewrite Hweb. destruct v; try done. by destruct (Hstr s).
  - intros web
      (Hname & (Hid & (Havatar & _)%Forall_cons)%Forall_cons)%Forall_cons
      Hweb Huid.
    apply Hfields. unfold subscript, mbind, result_bind.
    destruct Hname as [? ->], Hid as [? ->], Havatar as [? ->].
    by rewrite Hweb, Huid.
Qed.

Lemma build_integration_missing_field_witness :
  ∃ tr',
    build_integration
      (λ _, Ok (mkResponse 200 (Some (delete "avatar_url" sample_group))))
      sample_get_user_info ["api"; "sudo"] sample_state []
    = (Raise (KeyError "avatar_url"), tr').
Proof.
  eexists.
  destruct (build_integration_missing_field
              (λ _, Ok (mkResponse 200 (Some (delete "avatar_url" sample_group))))
              sample_get_user_info ["api"; "sudo"] sample_state []
              (sample_get_user_info (PStr "123432sfh29uhs29347")
                 sample_installation []).2
              _ sample_payload (PStr "123432sfh29uhs29347") sample_installation
              {[ "id" := PInt 7 ]} (delete "avatar_url" sample_group)
              eq_refl eq_refl eq_refl eq_refl eq_refl) as [Hkey _].
  apply (Hkey ["name"; "id"] "avatar_url" ["web_url"] eq_refl);
    [| reflexivity].
  repeat constructor; eexists; reflexivity.
Defined.

(** X5. [build_integration] produces a record exactly when the state
    holds a token payload with an access token and the installation
    data, both lookups succeed, the group has [name], [id], [avatar_url]
    and a string [web_url], and the user has [id].  The record then has
    the group's name, the group's avatar as icon, the [web_url] without
    [https://] as domain name, the user's id as external id of a
    [gitlab] identity, and the extracted OAuth data; the requests issued
    are those of the user lookup, then the group request. *)
Theorem build_integration_success_iff server get_user_info oauth_scopes
    (st : pipeline_state) (tr tr' : list request) (integ : Integration) :
  build_integration server get_user_info oauth_scopes st tr = (Ok integ, tr') ↔
  ∃ payload tok inst oauth_data user tr1 (grp : jobj) gname gid avatar web uid,
    identity st = Some payload ∧
    payload !! "access_token" = Some tok ∧
    installation_data st = Some inst ∧
    get_oauth_data payload = Ok oauth_data ∧
    get_user_info tok inst tr = (Ok user, tr1) ∧
    get_group_info server tok inst tr1 = (Ok grp, tr') ∧
    tr' = tr1 ++ [group_request tok inst] ∧
    grp !! "name" = Some gname ∧ grp !! "id" = Some gid ∧
    grp !! "avatar_url" = Some avatar ∧ grp !! "web_url" = Some (PStr web) ∧
    user !! "id" = Some uid ∧
    integration_name integ = gname ∧
    icon (metadata integ) = avatar ∧
    domain_name (metadata integ) = str_replace "https://" "" web ∧
    identity_type (user_identity integ) = "gitlab" ∧
    identity_external_id (user_identity integ) = uid ∧
    identity_data (user_identity integ) = oauth_data ∧
    integ = assembled inst (sorted oauth_scopes) oauth_data
              gname gid avatar web uid.
Proof.
  split.
  - intros (payload & tok & inst & oauth_data & user & tr1 & grp & gname & gid
              & avatar & web & uid & Hidentity & Htok & Hinst & Hdata & Huser
              & Hgroup & Hname & Hid & Havatar & Hweb & Huid
              & ->)%build_integration_inv.
    exists payload, tok, inst, oauth_data, user, tr1, grp, gname, gid, avatar,
      web, uid.
    repeat (split; [done |]).
    split; [| repeat (split; [done |]); done].
    rewrite get_group_info_unfold in Hgroup. by injection Hgroup.
  - intros (payload & tok & inst & oauth_data & user & tr1 & grp & gname & gid
              & avatar & web & uid & Hidentity & Htok & Hinst & Hdata & Huser
              & Hgroup & _ & Hname & Hid & Havatar & Hweb & Huid & _ & _ & _
              & _ & _ & _ & ->).
    destruct (build_integration_complete server get_user_info oauth_scopes
                st tr tr1 tr' payload tok inst user grp gname gid avatar web
                uid) as (oauth_data' & Hdata' & Hrun); try done.
    rewrite Hdata in Hdata'. by injection Hdata' as <-.
Qed.

(** X6. [build_integration] reads only the keys [access_token],
    [refresh_token] and [token_type] of the token payload: setting any
    other key of the payload, [scope] for one, changes neither the
    outcome nor the requests issued. *)
Theorem build_integration_ignores_other_keys server get_user_info oauth_scopes
    (st : pipeline_state) (tr : list request) (payload : jobj) k v :
  k ≠ "access_token" → k ≠ "refresh_token" → k ≠ "token_type" →
  build_integration server get_user_info oauth_scopes
    (bind_identity (<[k := v]> payload) st) tr
  = build_integration server get_user_info oauth_scopes
      (bind_identity payload st) tr.
Proof.
  intros Htok Hrefresh Htype. unfold_build_integration.
  unfold get_oauth_data, subscript. simpl.
  by rewrite !lookup_insert_ne.
Qed.

Lemma build_integration_ignores_other_keys_witness :
  build_integration (sample_server 200) sample_get_user_info ["api"; "sudo"]
    (bind_identity (<["scope" := PStr "read_user"]> sample_payload) sample_state)
    []
  = build_integration (sample_server 200) sample_get_user_info ["api"; "sudo"]
      (bind_identity sample_payload sample_state) [].
Proof.
  apply (build_integration_ignores_other_keys (sample_server 200)
           sample_get_user_info ["api"; "sudo"] sample_state [] sample_payload
           "scope" (PStr "read_user")); discriminate.
Defined.

(** ** [sorted] sorts *)

From stdpp Require Import sorting.

Lemma sorted_insert_perm (x : string) (l : list string) :
  sorted_insert x l ≡ₚ x :: l.
Proof.
  induction l as [|y l IH]; simpl; [done |].
  destruct (String.leb x y); [done |].
  by rewrite IH, perm_swap.
Qed.

Lemma sorted_perm (l : list string) : sorted l ≡ₚ l.
Proof.
  induction l as [|x l IH]; simpl; [done |].
  by rewrite sorted_insert_perm, IH.
Qed.

Lemma sorted_insert_sorted (x : string) (l : list string) :
  StronglySorted String.le l → StronglySorted String.le (sorted_insert x l).
Proof.
  induction l as [|y l IH]; simpl; intros Hl.
  - repeat constructor.
  - apply StronglySorted_inv in Hl as [Hl Hy].
    destruct (String.leb x y) eqn:Hxy.
    + apply Is_true_true in Hxy. constructor; [by constructor |].
      constructor; [done |].
      eapply Forall_impl; [exact Hy |]. intros z Hz. by etrans.
    + constructor; [by apply IH |].
      rewrite sorted_insert_perm. constructor; [| done].
      destruct (total String.le x y) as [Hle | Hle]; [| done].
      apply Is_true_true in Hle. unfold String.le in Hle. congruence.
Qed.

Lemma sorted_sorted (l : list string) : StronglySorted String.le (sorted l).
Proof.
  induction l as [|x l IH]; simpl; [constructor |].
  by apply sorted_insert_sorted.
Qed.

(** X7. Whatever the scopes of the identity provider are, the record
    that [build_integration] produces lists them once each in ascending
    order, and lists the same scopes for the metadata and for the user
    identity. *)
Theorem build_integration_scopes_sorted server get_user_info oauth_scopes
    (st : pipeline_state) (tr tr' : list request) (integ : Integration) :
  build_integration server get_user_info oauth_scopes st tr = (Ok integ, tr') →
  scopes (metadata integ) ≡ₚ oauth_scopes ∧
  StronglySorted String.le (scopes (metadata integ)) ∧
  identity_scopes (user_identity integ) = scopes (metadata integ).
Proof.
  intros (payload & tok & inst & oauth_data & user & tr1 & grp & gname & gid
            & avatar & web & uid & _ & _ & _ & _ & _ & _ & _ & _ & _ & _ & _
            & ->)%build_integration_inv.
  simpl. split; [apply sorted_perm |]. split; [apply sorted_sorted | done].
Qed.

Lemma build_integration_scopes_sorted_witness :
  ∃ integ tr',
    build_integration (sample_server 200) sample_get_user_info
      ["sudo"; "read_user"; "api"] sample_state [] = (Ok integ, tr') ∧
    scopes (metadata integ) = ["api"; "read_user"; "sudo"] ∧
    scopes (metadata integ) ≡ₚ ["sudo"; "read_user"; "api"] ∧
    StronglySorted String.le (scopes (metadata integ)).
Proof.
  eexists _, _. split; [reflexivity |]. split; [reflexivity |].
  destruct (build_integration_scopes_sorted (sample_server 200)
              sample_get_user_info ["sudo"; "read_user"; "api"] sample_state []
              _ _ eq_refl) as (Hperm & Hsorted & _).
  split; [exact Hperm | exact Hsorted].
Defined.

(** ** Properties of [str.replace] *)







(** ** The URL parser on urls without a slash or a bracket *)

Lemma str_in_drop (c : ascii) (n : nat) (s : string) :
  str_in c (str_drop n s) = true → str_in c s = true.
Proof.
  revert s. induction n as [|n IH]; intros [|c' s]; simpl; try done.
  intros H%IH. rewrite H. by rewrite orb_true_r.
Qed.

Lemma str_in_strip_scheme (c : ascii) (submitted : string) :
  str_in c (strip_scheme submitted) = true → str_in c submitted = true.
Proof.
  unfold strip_scheme. repeat case_match; try done. apply str_in_drop.
Qed.

Lemma str_startswith_slashes (s : string) :
  str_startswith "//" s = true → str_in "/" s = true.
Proof.
  destruct s as [|c s]; simpl; [done |].
  intros [Hc _]%andb_true_iff. apply bool_decide_eq_true in Hc as <-.
  by rewrite bool_decide_eq_true_2.
Qed.

Lemma urlparse_netloc_no_slash (submitted : string) :
  str_in "/" submitted = false → urlparse_netloc submitted = Ok "".
Proof.
  intros Hno. unfold urlparse_netloc.
  destruct (str_startswith "//" (strip_scheme submitted)) eqn:Hstart; [| done].
  apply str_startswith_slashes, str_in_strip_scheme in Hstart. congruence.
Qed.

(** The URL parser raises nothing but [ValueError], and only on a url
    that holds a network location, hence a slash. *)
Lemma urlparse_netloc_raises (submitted : string) (e : exn) :
  urlparse_netloc submitted = Raise e →
  (∃ msg, e = ValueError msg) ∧ str_in "/" submitted = true.
Proof.
  intros Hraise. split.
  - unfold urlparse_netloc in Hraise.
    repeat case_match; simplify_eq. by eexists.
  - destruct (str_in "/" submitted) eqn:Hslash; [done |].
    apply urlparse_netloc_no_slash in Hslash. congruence.
Qed.

(** ** Further properties of the configuration view *)

(** X9. A valid submission whose url holds no slash, a bare host name
    for one, has an empty network location: the view goes to the next
    step with an empty [url] bound in the installation data and with the
    endpoints [https:///oauth/token] and [https:///oauth/authorize]. *)
Theorem dispatch_url_without_slash strip (post : querydict)
    (st : pipeline_state) (form_data : InstallationData) :
  InstallationForm_clean strip post = Some form_data →
  str_in "/" (url form_data) = false →
  ∃ st' inst config,
    dispatch strip post st = Ok (st', NextStep) ∧
    installation_data st' = Some inst ∧ url inst = "" ∧
    oauth_config_information st' = Some config ∧
    access_token_url config = "https:///oauth/token" ∧
    authorize_url config = "https:///oauth/authorize".
Proof.
  intros Hform Hno. apply urlparse_netloc_no_slash in Hno.
  eexists _, _, _. split; [by apply dispatch_valid |]. by simpl.
Qed.

Lemma dispatch_url_without_slash_witness :
  ∃ st' config,
    dispatch as_submitted (sample_post "gitlab.example.com") empty_state
    = Ok (st', NextStep) ∧
    oauth_config_information st' = Some config ∧
    access_token_url config = "https:///oauth/token".
Proof.
  destruct (dispatch_url_without_slash as_submitted
              (sample_post "gitlab.example.com") empty_state
              (mkInstallationData "gitlab.example.com" "Sentry App"
                 "my-awesome-group" false "5832fc6e" "XXXX")
              eq_refl eq_refl)
    as (st' & inst & config & Hrun & _ & _ & Hconfig & Htoken & _).
  by exists st', config.
Defined.

(** X10. The view fails in one way only: on a valid submission, with
    the [ValueError] that the URL parser raises on the cleaned url, which
    then holds a slash.  An invalid submission never raises: it is
    answered with the form, the state unchanged. *)
Theorem dispatch_raises_only_from_url_parser strip (post : querydict)
    (st : pipeline_state) :
  (∀ e, dispatch strip post st = Raise e →
        ∃ form_data msg,
          InstallationForm_clean strip post = Some form_data ∧
          urlparse_netloc (url form_data) = Raise e ∧
          e = ValueError msg ∧
          str_in "/" (url form_data) = true) ∧
  (InstallationForm_clean strip post = None →
   dispatch strip post st = Ok (st, RenderForm true)).
Proof.
  split.
  - intros e. unfold dispatch.
    destruct (InstallationForm_clean strip post) as [form_data|]; [| done].
    destruct (urlparse_netloc (url form_data)) as [netloc|e'] eqn:Hurl;
      [done |].
    intros [= <-].
    destruct (urlparse_netloc_raises _ _ Hurl) as [[msg ->] Hslash].
    by exists form_data, msg.
  - intros Hform. unfold dispatch. by rewrite Hform.
Qed.

Lemma dispatch_raises_only_from_url_parser_witness :
  ∃ form_data msg,
    InstallationForm_clean as_submitted (sample_post "http://[::1")
    = Some form_data ∧
    urlparse_netloc (url form_data) = Raise (ValueError msg) ∧
    dispatch as_submitted (delete "url" (sample_post "http://[::1")) empty_state
    = Ok (empty_state, RenderForm true).
Proof.
  destruct (dispatch_raises_only_from_url_parser as_submitted
              (sample_post "http://[::1") empty_state) as [Hraise _].
  destruct (Hraise (ValueError "Invalid IPv6 URL") eq_refl)
    as (form_data & msg & Hform & Hurl & Hmsg & _).
  exists form_data, msg. split; [exact Hform |].
  split; [by rewrite <- Hmsg |].
  apply (dispatch_raises_only_from_url_parser as_submitted
           (delete "url" (sample_post "http://[::1")) empty_state).
  reflexivity.
Defined.

Lemma dispatch_render_form strip (post : querydict) (st st' : pipeline_state)
    (initial : bool) :
  dispatch strip post st = Ok (st', RenderForm initial) →
  InstallationForm_clean strip post = None ∧ st' = st ∧ initial = true.
Proof.
  unfold dispatch.
  destruct (InstallationForm_clean strip post) as [form_data|].
  - by destruct (urlparse_netloc (url form_data)).
  - by intros [= <- <-].
Qed.

(** X11. The view binds the installation data and the OAuth
    configuration together or not at all, and never touches the identity:
    when it answers with the form the state is unchanged, and when it
    goes to the next step both are bound and the configuration is the
    one built from the installation data bound with it, so that its
    endpoints are on the bound [url] and its [verify_ssl] and client
    credentials are those bound. *)
Theorem dispatch_binds_both_or_nothing strip (post : querydict)
    (st st' : pipeline_state) (answer : view_response) :
  dispatch strip post st = Ok (st', answer) →
  identity st' = identity st ∧
  ((answer = RenderForm true ∧ st' = st) ∨
   (answer = NextStep ∧
    ∃ inst config,
      installation_data st' = Some inst ∧
      oauth_config_information st' = Some config ∧
      access_token_url config = "https://" +:+ url inst +:+ "/oauth/token" ∧
      authorize_url config = "https://" +:+ url inst +:+ "/oauth/authorize" ∧
      oauth_client_id config = client_id inst ∧
      oauth_client_secret config = client_secret inst ∧
      oauth_verify_ssl config = verify_ssl inst)).
Proof.
  destruct answer as [|initial].
  - intros (form_data & netloc & _ & _ & ->)%dispatch_next_step.
    split; [done |]. right. split; [done |]. by eexists _, _.
  - intros (_ & -> & ->)%dispatch_render_form. split; [done |]. by left.
Qed.

Lemma dispatch_binds_both_or_nothing_witness :
  ∃ st' inst config,
    dispatch as_submitted sample_post_verified sample_state = Ok (st', NextStep) ∧
    identity st' = Some sample_payload ∧
    installation_data st' = Some inst ∧
    oauth_config_information st' = Some config ∧
    access_token_url config = "https://" +:+ url inst +:+ "/oauth/token".
Proof.
  eexists _.
  destruct (dispatch_binds_both_or_nothing as_submitted sample_post_verified
              sample_state _ NextStep eq_refl)
    as [Hidentity [[[=] _] | (_ & inst & config & Hinst & Hconfig & Htoken & _)]].
  exists inst, config. repeat split; assumption.
Defined.

(** X12. A submission replaces what was bound before: the state that
    the view leaves when it goes to the next step depends on the
    submission and on the identity already bound only, not on the
    installation data or OAuth configuration of an earlier submission;
    in particular submitting the same form again changes nothing. *)
Theorem dispatch_overwrites strip (post : querydict)
    (st st' : pipeline_state) :
  dispatch strip post st = Ok (st', NextStep) →
  (∀ st2, identity st2 = identity st →
          dispatch strip post st2 = Ok (st', NextStep)) ∧
  dispatch strip post st' = Ok (st', NextStep).
Proof.
  intros (form_data & netloc & Hform & Hurl & ->)%dispatch_next_step.
  assert (∀ st2, identity st2 = identity st →
    dispatch strip post st2
    = Ok (mkState
            (Some (mkInstallationData netloc (name form_data)
                     (group form_data) (verify_ssl form_data)
                     (client_id form_data) (client_secret form_data)))
            (Some (oauth_config_of
                     (mkInstallationData netloc (name form_data)
                        (group form_data) (verify_ssl form_data)
                        (client_id form_data) (client_secret form_data))))
            (identity st), NextStep)) as Hsame.
  { intros st2 <-. by apply dispatch_valid. }
  split; [exact Hsame |]. by apply Hsame.
Qed.

Lemma dispatch_overwrites_witness :
  ∃ st',
    dispatch as_submitted sample_post_verified empty_state = Ok (st', NextStep) ∧
    dispatch as_submitted sample_post_verified
      (bind_installation_data sample_installation empty_state)
    = Ok (st', NextStep) ∧
    dispatch as_submitted sample_post_verified st' = Ok (st', NextStep).
Proof.
  eexists. split; [reflexivity |].
  destruct (dispatch_overwrites as_submitted sample_post_verified empty_state
              _ eq_refl) as [Hother Hagain].
  split; [by apply Hother | exact Hagain].
Defined.

(** X13. Once the configuration view went to the next step, the nested
    identity view can be made: it requests the scopes [api] and [sudo],
    redirects to the absolute URI of [/extensions/gitlab/setup/], and
    carries the endpoints, client credentials and [verify_ssl] of the
    OAuth configuration bound by the submission.  Before that, with no
    OAuth configuration in the state, making it fails: it has to be
    bound late. *)
Theorem identity_view_after_dispatch strip absolute_uri (post : querydict)
    (st st' : pipeline_state) :
  (dispatch strip post st = Ok (st', NextStep) →
   ∃ view inst,
     _make_identity_pipeline_view absolute_uri st' = Ok view ∧
     installation_data st' = Some inst ∧
     config_oauth_scopes view = ["api"; "sudo"] ∧
     config_redirect_url view = absolute_uri "/extensions/gitlab/setup/" ∧
     access_token_url (config_oauth view)
     = "https://" +:+ url inst +:+ "/oauth/token" ∧
     authorize_url (config_oauth view)
     = "https://" +:+ url inst +:+ "/oauth/authorize" ∧
     oauth_client_id (config_oauth view) = client_id inst ∧
     oauth_client_secret (config_oauth view) = client_secret inst ∧
     oauth_verify_ssl (config_oauth view) = verify_ssl inst) ∧
  (oauth_config_information st = None →
   ∃ e, _make_identity_pipeline_view absolute_uri st = Raise e).
Proof.
  split.
  - intros (form_data & netloc & _ & _ & ->)%dispatch_next_step.
    by eexists _, _.
  - intros Hnone. unfold _make_identity_pipeline_view. rewrite Hnone.
    by eexists.
Qed.

Lemma identity_view_after_dispatch_witness :
  ∃ st' view,
    dispatch as_submitted sample_post_verified empty_state = Ok (st', NextStep) ∧
    _make_identity_pipeline_view (λ path, "https://sentry.example.com" +:+ path)
      st' = Ok view ∧
    config_redirect_url view
    = "https://sentry.example.com/extensions/gitlab/setup/" ∧
    access_token_url (config_oauth view)
    = "https://gitlab.example.com/oauth/token" ∧
    oauth_verify_ssl (config_oauth view) = true.
Proof.
  eexists _, _. split; [reflexivity |]. split; [reflexivity |].
  edestruct (identity_view_after_dispatch as_submitted
               (λ path, "https://sentry.example.com" +:+ path)
               sample_post_verified empty_state) as [Hview _].
  destruct (Hview eq_refl)
    as (view & inst & Hmake & Hinst & _ & Hredirect & Htoken & _ & _ & _
          & Hverify).
  injection Hmake as <-. injection Hinst as <-.
  split; [exact Hredirect |]. split; [exact Htoken | exact Hverify].
Defined.

(** X14. The check box never decides the validity of the form: whatever
    is submitted for [verify_ssl], and also when it is left out, the
    form is valid exactly when it is valid without it, with the same
    cleaned texts; only the cleaned [verify_ssl] follows the box. *)
Theorem verify_ssl_never_invalidates strip (post : querydict) (v : string) :
  InstallationForm_clean strip (<["verify_ssl" := v]> post)
  = (λ d, mkInstallationData (url d) (name d) (group d)
            (BooleanField_clean (<["verify_ssl" := v]> post) "verify_ssl")
            (client_id d) (client_secret d))
    <$> InstallationForm_clean strip post ∧
  InstallationForm_clean strip (delete "verify_ssl" post)
  = (λ d, mkInstallationData (url d) (name d) (group d) false
            (client_id d) (client_secret d))
    <$> InstallationForm_clean strip post.
Proof.
  unfold InstallationForm_clean, CharField_clean.
  rewrite (BooleanField_clean_omitted (delete "verify_ssl" post))
    by apply lookup_delete_eq.
  rewrite !lookup_insert_ne, !lookup_delete_ne by done.
  split.
  all: destruct (post !! "url") as [u|]; [| done]; simpl;
    case_bool_decide; [done |]; simpl.
  all: destruct (post !! "name") as [n|]; [| done]; simpl;
    case_bool_decide; [done |]; simpl.
  all: destruct (post !! "group") as [g|]; [| done]; simpl;
    case_bool_decide; [done |]; simpl.
  all: destruct (post !! "client_id") as [i|]; [| done]; simpl;
    case_bool_decide; [done |]; simpl.
  all: destruct (post !! "client_secret") as [s|]; [| done]; simpl;
    by case_bool_decide.
Qed.

(** ** The pipeline from the submission to the record *)

(** X15. From a valid submission to the record: the base url in the
    record's [external_id] is the network location of the submitted url,
    not the url as submitted; the OAuth endpoints and the group request,
    which is the last request issued, are on that same host, the group
    request asking for the submitted group with the submitted
    [verify_ssl]. *)
Theorem pipeline_uses_one_host strip server get_user_info oauth_scopes
    (post : querydict) (st st' : pipeline_state) (payload : jobj)
    (tr tr' : list request) (integ : Integration) :
  dispatch strip post st = Ok (st', NextStep) →
  build_integration server get_user_info oauth_scopes
    (bind_identity payload st') tr = (Ok integ, tr') →
  ∃ form_data host config tr1 req gid,
    InstallationForm_clean strip post = Some form_data ∧
    urlparse_netloc (url form_data) = Ok host ∧
    oauth_config_information st' = Some config ∧
    access_token_url config = "https://" +:+ host +:+ "/oauth/token" ∧
    authorize_url config = "https://" +:+ host +:+ "/oauth/authorize" ∧
    tr' = tr1 ++ [req] ∧
    req_url req
    = "https://" +:+ host +:+ "/api/v4/groups/" +:+ group form_data ∧
    req_verify req = verify_ssl form_data ∧
    external_id integ = host +:+ ":" +:+ py_str gid.
Proof.
  intros (form_data & netloc & Hform & Hurl & ->)%dispatch_next_step
    (payload' & tok & inst & oauth_data & user & tr1 & grp & gname & gid
       & avatar & web & uid & _ & _ & Hinst & _ & _ & Hgroup & _ & Hid & _ & _
       & _ & ->)%build_integration_inv.
  simpl in Hinst. injection Hinst as <-.
  rewrite get_group_info_unfold in Hgroup.
  eexists form_data, netloc, _, tr1, _, gid.
  repeat (split; [done |]).
  split; [by injection Hgroup |]. done.
Qed.

Lemma pipeline_uses_one_host_witness :
  ∃ st' integ tr1 req,
    dispatch as_submitted sample_post_verified empty_state
    = Ok (st', NextStep) ∧
    build_integration (sample_server 200) sample_get_user_info ["api"; "sudo"]
      (bind_identity sample_payload st') [] = (Ok integ, tr1 ++ [req]) ∧
    req_url req = "https://gitlab.example.com/api/v4/groups/my-awesome-group" ∧
    external_id integ = "gitlab.example.com:42".
Proof.
  edestruct (pipeline_uses_one_host as_submitted (sample_server 200)
               sample_get_user_info ["api"; "sudo"] sample_post_verified
               empty_state _ sample_payload [] _ _ eq_refl eq_refl)
    as (form_data & host & config & tr1 & req & gid & Hform & Hurl & _ & _ & _
          & Htrace & Hreq & _ & _).
  eexists _, _, tr1, req. split; [reflexivity |].
  split; [by rewrite <- Htrace |].
  injection Hform as <-. injection Hurl as <-.
  split; [exact Hreq | reflexivity].
Defined.

(** ** Further properties of the group lookup *)



(** X17. What the group lookup raises on an answer of the remote end is
    never an [ApiError]: the error translator gives it the internal-error
    message, also when the status of the answer is 404 or 401. *)
Theorem group_lookup_error_message (internal unauth : string)
    server tok inst (tr tr' : list request) (resp : response) (e : exn) :
  server (group_request tok inst) = Ok resp →
  get_group_info server tok inst tr = (Raise e, tr') →
  is_ApiError e = false ∧ message_from_error internal unauth e = internal.
Proof.
  intros Hresp. rewrite get_group_info_unfold, Hresp.
  unfold Requests.raise_for_status, Requests.json, mbind, result_bind.
  case_bool_decide; [by intros [= <- _] |].
  destruct (resp_json resp); [done |]. by intros [= <- _].
Qed.

Lemma group_lookup_error_message_witness :
  message_from_error "internal error" "unauthorized"
    (HTTPError (mkResponse 404 (Some sample_group)))
  = "internal error".
Proof.
  apply (group_lookup_error_message "internal error" "unauthorized"
           (sample_server 404) (PStr "tok") sample_installation []
           [group_request (PStr "tok") sample_installation]
           (mkResponse 404 (Some sample_group))
           (HTTPError (mkResponse 404 (Some sample_group)))
           eq_refl eq_refl).
Defined.

(** X18. The group lookup uses the [url], the [group] and the
    [verify_ssl] of the installation data and nothing else of them: the
    name of the application, the client id and the client secret reach
    neither the request nor the outcome. *)
Theorem get_group_info_keeps_credentials server tok
    (inst inst' : InstallationData) (tr : list request) :
  url inst = url inst' → group inst = group inst' →
  verify_ssl inst = verify_ssl inst' →
  get_group_info server tok inst tr = get_group_info server tok inst' tr.
Proof.
  intros Hurl Hgroup Hverify. rewrite !get_group_info_unfold.
  unfold group_request. by rewrite Hurl, Hgroup, Hverify.
Qed.

Lemma get_group_info_keeps_credentials_witness :
  get_group_info (sample_server 200) (PStr "tok") sample_installation []
  = get_group_info (sample_server 200) (PStr "tok")
      (mkInstallationData "gitlab.example.com" "Another App"
         "my-awesome-group" true "0000" "YYYY") [].
Proof.
  apply (get_group_info_keeps_credentials (sample_server 200) (PStr "tok")
           sample_installation
           (mkInstallationData "gitlab.example.com" "Another App"
              "my-awesome-group" true "0000" "YYYY") []);
    reflexivity.
Defined.

(** ** Further properties of the re-installation *)



(** The decimal rendering of an integer holds no colon. *)
Lemma pretty_N_go_no_colon (x : N) (s : string) :
  str_in ":" s = false → str_in ":" (pretty_N_go x s) = false.
Proof.
  revert s. induction (N.lt_wf_0 x) as [x _ IH]; intros s Hs.
  assert (x = 0 ∨ 0 < x)%N as [-> | Hpos] by lia.
  - by rewrite pretty_N_go_0.
  - rewrite pretty_N_go_step by done. apply IH; [by apply N.div_lt |].
    simpl. rewrite Hs, orb_false_r. apply bool_decide_eq_false.
    unfold pretty_N_char. by repeat case_match.
Qed.

Lemma pretty_Z_no_colon (n : Z) : str_in ":" (pretty n) = false.
Proof.
  assert (∀ p : positive, str_in ":" (pretty p) = false) as Hpos.
  { intros p. unfold pretty, pretty_positive, pretty, pretty_N.
    case_decide; [done |]. by apply pretty_N_go_no_colon. }
  destruct n as [|p|p]; [done | apply Hpos |].
  unfold pretty, pretty_Z.
  change ("-" +:+ pretty p) with (String "-" (pretty p)). simpl.
  apply Hpos.
Qed.

Lemma str_app_assoc (a b c : string) : (a +:+ b) +:+ c = a +:+ (b +:+ c).
Proof.
  induction a as [|x a IH]; [done |]. by rewrite !str_app_cons, IH.
Qed.

(** X20. Re-installing an integration whose external id was assembled by
    [build_integration]: when the base url holds no colon and the group
    id is an integer, the [installation_id] stored is the decimal
    rendering of the group id; when the base url is a host with a port,
    it is the port that is stored, the second segment of the external
    id, and not the group id. *)
Theorem reinstall_after_build_integration (Repositories : Type)
    (reinstall_repositories :
       IntegrationModel → Repositories → result unit * Repositories)
    server get_user_info oauth_scopes (st : pipeline_state)
    (tr tr' : list request) (integ : Integration)
    (stored : jobj) (repos : Repositories) :
  build_integration server get_user_info oauth_scopes st tr = (Ok integ, tr') →
  ∃ inst tok tr1 (grp : jobj) gid r model' repos',
    installation_data st = Some inst ∧
    get_group_info server tok inst tr1 = (Ok grp, tr') ∧
    grp !! "id" = Some gid ∧
    reinstall Repositories reinstall_repositories
      (mkModel (external_id integ) stored, repos) = (r, (model', repos')) ∧
    (∀ n, str_in ":" (url inst) = false → gid = PInt n →
          model_metadata model' !! "installation_id" = Some (PStr (pretty n))) ∧
    (∀ host port,
       url inst = host +:+ ":" +:+ port →
       str_in ":" host = false → str_in ":" port = false →
       model_metadata model' !! "installation_id" = Some (PStr port)).
Proof.
  intros (payload & tok & inst & oauth_data & user & tr1 & grp & gname & gid
            & avatar & web & uid & _ & _ & Hinst & _ & _ & Hgroup & _ & Hid & _
            & _ & _ & ->)%build_integration_inv.
  destruct (reinstall Repositories reinstall_repositories
              (mkModel (external_id (assembled inst (sorted oauth_scopes)
                          oauth_data gname gid avatar web uid)) stored, repos))
    as [r [model' repos']] eqn:Hrun.
  exists inst, tok, tr1, grp, gid, r, model', repos'.
  repeat (split; [done |]).
  unfold reinstall in Hrun. cbn [model_external_id external_id assembled] in Hrun.
  split.
  - intros n Hurl ->.
    change (url inst +:+ ":" +:+ py_str (PInt n))
      with (url inst +:+ String ":" (pretty n)) in Hrun.
    rewrite <- (str_app_nil_r (pretty n)) in Hrun at 1.
    rewrite (str_split_second ":" (url inst) (pretty n) "") in Hrun;
      [| done | apply pretty_Z_no_colon | by left].
    destruct (reinstall_repositories _ repos). simplify_eq/=.
    apply lookup_insert_eq.
  - intros host port Hurl Hhost Hport. rewrite Hurl in Hrun.
    replace ((host +:+ ":" +:+ port) +:+ ":" +:+ py_str gid)
      with (host +:+ String ":" (port +:+ String ":" (py_str gid))) in Hrun
      by (by rewrite str_app_assoc, (str_app_assoc ":" port)).
    rewrite (str_split_second ":" host port) in Hrun;
      [| done | done | right; by eexists].
    destruct (reinstall_repositories _ repos). simplify_eq/=.
    apply lookup_insert_eq.
Qed.

Lemma reinstall_after_build_integration_witness :
  ∃ integ tr' model',
    build_integration (sample_server 200) sample_get_user_info ["api"; "sudo"]
      sample_state [] = (Ok integ, tr') ∧
    reinstall unit (λ _ repos, (Ok (), repos))
      (mkModel (external_id integ) ∅, ()) = (Ok (), (model', ())) ∧
    model_metadata model' !! "installation_id" = Some (PStr "42").
Proof.
  eexists _, _, _. split; [reflexivity |]. split; [reflexivity |].
  destruct (reinstall_after_build_integration unit (λ _ repos, (Ok (), repos))
              (sample_server 200) sample_get_user_info ["api"; "sudo"]
              sample_state [] _ _ ∅ () eq_refl)
    as (inst & tok & tr1 & grp & gid & r & model' & repos' & Hinst & Hgroup
          & Hid & Hrun & Hplain & _).
  injection Hinst as <-. rewrite get_group_info_unfold in Hgroup.
  injection Hgroup as <- _. injection Hid as <-.
  injection Hrun as _ <- _.
  exact (Hplain 42%Z eq_refl eq_refl).
Defined.

(** ** A further property of the error translator *)

(** X21. The error translator never answers with an empty message, as
    long as the internal-error message is not empty: an entry of the
    table is used only when it is a non-empty text, so that even an
    empty unauthorized message would give way to the formatted one. *)
Theorem message_from_error_not_empty (internal unauth : string) (exc : exn) :
  internal ≠ "" →
  message_from_error internal unauth exc ≠ "" ∧
  (unauth = "" →
   ∀ json, message_from_error internal unauth (ApiError 401 json)
           = format_error 401 json).
Proof.
  intros Hinternal. split.
  - destruct exc as [code json| | | | | |]; simpl; try done.
    destruct (API_ERRORS unauth !! code) as [message|]; [| done].
    unfold str_truthy. by case_bool_decide.
  - intros -> json. unfold message_from_error, API_ERRORS.
    rewrite lookup_insert_ne by done. by rewrite lookup_singleton_eq.
Qed.

Lemma message_from_error_not_empty_witness :
  message_from_error "internal error" "" (ApiError 401 None)
  = "Error Communicating with Gitlab (HTTP 401): unknown error".
Proof.
  destruct (message_from_error_not_empty "internal error" ""
              (ApiError 401 None)) as [_ Hfallback]; [discriminate |].
  exact (Hfallback eq_refl None).
Defined.
